(** * pyweb.ui.elements: a shallow embedding of the element classes

    The module [pyweb/ui/elements.py] declares one Python class per HTML
    tag.  Each class wraps a native DOM node that is created by its
    constructor; the routine [_add_js_properties] installs typed
    properties on a class, and the constructors apply an inline style,
    harvest keyword arguments into properties and insert content.

    The embedding follows the structure of the source: the class
    statements and the calls of [_add_js_properties] are executed, in
    source order, over a name space; constructors run in a small state
    monad over a DOM store that also records every call made to the
    browser. *)

From stdpp Require Import gmap strings list fin_maps.

Open Scope string_scope.
Open Scope list_scope.

(** ** Classes and class dictionaries *)

(** The three constructors defined in the module. *)
Inductive init_fn :=
| ElementBase_init
| TextElementBase_init
| grid_init.

Global Instance init_fn_eq_dec : EqDecision init_fn.
Proof. solve_decision. Defined.

(** Values found in a class dictionary.  Entries that Python adds by
    itself ([__module__], [__qualname__], [__doc__]) are plain strings or
    [None]; they are never a [JSProperty] and are left out. *)
Inductive attr :=
| AStr (s : string)
| AInit (f : init_fn)
| AMethod (name : string)
| AJSProperty (js_name : string).

(** A class object: its name, its single base and its own dictionary, in
    insertion order.  [PydomElement] stands for [pydom.Element], the root
    of the hierarchy, which lives outside this module.  The base is held
    by value: the module never mutates a class after deriving from it. *)
Inductive pyclass :=
| PydomElement
| PyClass (name : string) (base : pyclass) (dict : list (string * attr)).

(** [cls.__name__] *)
Definition cls_name (c : pyclass) : string :=
  match c with PydomElement => "pydom.Element" | PyClass n _ _ => n end.

(** [cls.__dict__]: the attributes defined directly on the class. *)
Definition cls_dict (c : pyclass) : list (string * attr) :=
  match c with PydomElement => [] | PyClass _ _ d => d end.

(** [isinstance(attr, JSProperty)] *)
Definition is_JSProperty (a : attr) : bool :=
  match a with AJSProperty _ => true | _ => false end.

(** Insertion-ordered dictionaries: lookup finds the entry of a key,
    assignment replaces it in place or appends a new entry at the end. *)
Fixpoint dict_get {A} (d : list (string * A)) (k : string) : option A :=
  match d with
  | [] => None
  | (k', v) :: d' => if decide (k' = k) then Some v else dict_get d' k
  end.

Fixpoint dict_set {A} (d : list (string * A)) (k : string) (v : A)
  : list (string * A) :=
  match d with
  | [] => [(k, v)]
  | (k', v') :: d' =>
      if decide (k' = k) then (k, v) :: d' else (k', v') :: dict_set d' k v
  end.

(** Attribute lookup on a type, along the method resolution order. *)
Fixpoint type_lookup (c : pyclass) (name : string) : option attr :=
  match c with
  | PydomElement => None
  | PyClass _ base d =>
      match dict_get d name with
      | Some a => Some a
      | None => type_lookup base name
      end
  end.

(** [cls.tag] *)
Definition class_tag (c : pyclass) : option string :=
  match type_lookup c "tag" with
  | Some (AStr t) => Some t
  | _ => None
  end.

(** [setattr(cls, name, value)] on a class object. *)
Definition setattr_class (c : pyclass) (name : string) (a : attr) : pyclass :=
  match c with
  | PydomElement => PydomElement
  | PyClass n b d => PyClass n b (dict_set d name a)
  end.

(** ** Module-level tables *)

Definition GLOBAL_ATTRIBUTES : list string :=
  [ "accesskey"; "autocapitalize"; "autofocus"; "draggable";
    "enterkeyhint"; "hidden"; "id"; "lang"; "nonce"; "part"; "popover";
    "slot"; "spellcheck"; "tabindex"; "title"; "translate";
    "virtualkeyboardpolicy"; "className" ].

Definition CUSTOM_ATTRIBUTES : list (string * list string) :=
  [ ("a", ["download"; "href"; "referrerpolicy"; "rel"; "target"; "type"]);
    ("td", ["colspan"; "headers"; "rowspan"]);
    ("template", ["shadowrootmode"]);
    ("textarea", ["autocapitalize"; "autocomplete"; "autofocus"; "cols";
                  "dirname"; "disabled"; "form"; "maxlength"; "minlength";
                  "name"; "placeholder"; "readonly"; "required"; "rows";
                  "spellcheck"; "wrap"]);
    ("tr", ["abbr"; "colspan"; "headers"; "rowspan"; "scope"]);
    ("time", ["datetime"]);
    ("video", ["autoplay"; "controls"; "crossorigin";
               "disablepictureinpicture"; "disableremoteplayback"; "height";
               "loop"; "muted"; "playsinline"; "poster"; "preload"; "src";
               "width"]) ].

(** Modelled from the spec: [js_property] belongs to the [pyweb] package,
    which is not part of the sources at hand.  [js_property(name)] builds
    a [JSProperty] that gets and sets the property called [name] of the
    wrapped node. *)
Definition js_property (name : string) : attr := AJSProperty name.

(** [_add_js_properties(cls, *attrs)]: the two [setattr] loops. *)
Definition _add_js_properties (cls : pyclass) (attrs : list string) : pyclass :=
  let cls1 :=
    foldl (fun c a => setattr_class c a (js_property a)) cls GLOBAL_ATTRIBUTES in
  foldl (fun c a => setattr_class c a (js_property a)) cls1 attrs.

(** The last statement of [_add_js_properties] rewrites the docstring of
    [cls.__init__].  The function object is found along the resolution
    order, so a class without a constructor of its own patches the one it
    inherits.  A docstring is kept as the two values spliced into it, the
    tag of the class and the extra names. *)
Definition init_of (c : pyclass) : option init_fn :=
  match type_lookup c "__init__" with
  | Some (AInit f) => Some f
  | _ => None
  end.

Record docstring := Doc { doc_tag : string; doc_attrs : list string }.

Definition patch_init_doc (f : init_fn) (doc : docstring)
    (docs : init_fn -> option docstring) : init_fn -> option docstring :=
  fun g => if decide (g = f) then Some doc else docs g.

(** ** Executing the module body

    A class statement binds a new class object to its name; a call of
    [_add_js_properties] updates the class bound to the name and patches
    the docstring of its constructor. *)

Inductive stmt :=
| SClass (name base : string) (body : list (string * attr))
| SAddJs (cls : string) (attrs : list string).

Record module_state := Module_state {
  ms_names : gmap string pyclass;
  ms_init_doc : init_fn -> option docstring
}.

Definition exec_stmt (ms : module_state) (s : stmt) : option module_state :=
  match s with
  | SClass name base body =>
      b ← ms_names ms !! base;
      Some (Module_state (<[name := PyClass name b body]> (ms_names ms))
                         (ms_init_doc ms))
  | SAddJs name attrs =>
      c ← ms_names ms !! name;
      let c' := _add_js_properties c attrs in
      f ← init_of c';
      t ← class_tag c';
      Some (Module_state (<[name := c']> (ms_names ms))
                         (patch_init_doc f (Doc t attrs) (ms_init_doc ms)))
  end.

Fixpoint exec_stmts (ms : module_state) (ss : list stmt) : option module_state :=
  match ss with
  | [] => Some ms
  | s :: ss' => ms' ← exec_stmt ms s; exec_stmts ms' ss'
  end.

Definition initial_state : module_state :=
  Module_state {[ "pydom.Element" := PydomElement ]} (fun _ => None).

(** The class statements and harvesting calls of the module, in source
    order. *)
Definition module_body : list stmt := [
  SClass "ElementBase" "pydom.Element" [("tag", AStr "div");
      ("__init__", AInit ElementBase_init);
      ("_init_properties", AMethod "_init_properties")];
  SClass "TextElementBase" "ElementBase"
      [("__init__", AInit TextElementBase_init)];
  SClass "a" "TextElementBase" [("tag", AStr "a")];
  SClass "abbr" "ElementBase" [("tag", AStr "abbr")];
  SAddJs "abbr" [];
  SClass "address" "ElementBase" [("tag", AStr "address")];
  SAddJs "address" [];
  SClass "area" "ElementBase" [("tag", AStr "area")];
  SAddJs "area" ["alt"; "coords"; "download"; "href"; "ping";
      "referrerpolicy"; "rel"; "shape"; "target"];
  SClass "article" "ElementBase" [("tag", AStr "article")];
  SAddJs "article" [];
  SClass "aside" "ElementBase" [("tag", AStr "aside")];
  SAddJs "aside" [];
  SClass "audio" "ElementBase" [("tag", AStr "audio")];
  SAddJs "audio" ["autoplay"; "controls"; "controlslist"; "crossorigin";
      "disableremoteplayback"; "loop"; "muted"; "preload"; "src"];
  SClass "b" "ElementBase" [("tag", AStr "b")];
  SAddJs "b" [];
  SClass "blockquote" "ElementBase" [("tag", AStr "blockquote")];
  SAddJs "blockquote" ["cite"];
  SClass "br" "ElementBase" [("tag", AStr "br")];
  SAddJs "br" [];
  SClass "button" "TextElementBase" [("tag", AStr "button")];
  SAddJs "button" ["autofocus"; "disabled"; "form"; "formaction";
      "formenctype"; "formmethod"; "formnovalidate"; "formtarget"; "name";
      "type"; "value"];
  SClass "canvas" "ElementBase" [("tag", AStr "canvas")];
  SAddJs "canvas" ["height"; "width"];
  SClass "caption" "ElementBase" [("tag", AStr "caption")];
  SAddJs "caption" [];
  SClass "cite" "TextElementBase" [("tag", AStr "cite")];
  SAddJs "cite" [];
  SClass "code" "TextElementBase" [("tag", AStr "code")];
  SAddJs "code" [];
  SClass "data" "TextElementBase" [("tag", AStr "data")];
  SAddJs "data" ["value"];
  SClass "datalist" "TextElementBase" [("tag", AStr "datalist")];
  SAddJs "datalist" [];
  SClass "dd" "TextElementBase" [("tag", AStr "dd")];
  SAddJs "dd" [];
  SClass "del_" "TextElementBase" [("tag", AStr "del")];
  SAddJs "del_" ["cite"; "datetime"];
  SClass "details" "TextElementBase" [("tag", AStr "details")];
  SAddJs "details" ["open"];
  SClass "dialog" "TextElementBase" [("tag", AStr "dialog")];
  SAddJs "dialog" ["open"];
  SClass "div" "TextElementBase" [("tag", AStr "div")];
  SAddJs "div" [];
  SClass "dl" "TextElementBase" [("tag", AStr "dl")];
  SAddJs "dl" ["value"];
  SClass "dt" "TextElementBase" [("tag", AStr "dt")];
  SAddJs "dt" [];
  SClass "em" "TextElementBase" [("tag", AStr "em")];
  SAddJs "em" [];
  SClass "embed" "TextElementBase" [("tag", AStr "embed")];
  SAddJs "embed" ["height"; "src"; "type"; "width"];
  SClass "fieldset" "TextElementBase" [("tag", AStr "fieldset")];
  SAddJs "fieldset" ["disabled"; "form"; "name"];
  SClass "figcation" "TextElementBase" [("tag", AStr "figcation")];
  SAddJs "figcation" [];
  SClass "figure" "TextElementBase" [("tag", AStr "figure")];
  SAddJs "figure" [];
  SClass "footer" "TextElementBase" [("tag", AStr "footer")];
  SAddJs "footer" [];
  SClass "form" "TextElementBase" [("tag", AStr "form")];
  SAddJs "form" ["accept-charset"; "action"; "autocapitalize"; "autocomplete";
      "enctype"; "name"; "method"; "nonvalidate"; "rel"; "target"];
  SClass "h1" "TextElementBase" [("tag", AStr "h1")];
  SAddJs "h1" [];
  SClass "h2" "TextElementBase" [("tag", AStr "h2")];
  SAddJs "h2" [];
  SClass "h3" "TextElementBase" [("tag", AStr "h3")];
  SAddJs "h3" [];
  SClass "h4" "TextElementBase" [("tag", AStr "h4")];
  SAddJs "h4" [];
  SClass "h5" "TextElementBase" [("tag", AStr "h5")];
  SAddJs "h5" [];
  SClass "h6" "TextElementBase" [("tag", AStr "h6")];
  SAddJs "h6" [];
  SClass "header" "TextElementBase" [("tag", AStr "header")];
  SAddJs "header" [];
  SClass "hgroup" "TextElementBase" [("tag", AStr "hgroup")];
  SAddJs "hgroup" [];
  SClass "hr" "TextElementBase" [("tag", AStr "hr")];
  SAddJs "hr" [];
  SClass "i" "TextElementBase" [("tag", AStr "i")];
  SAddJs "i" [];
  SClass "iframe" "TextElementBase" [("tag", AStr "iframe")];
  SAddJs "iframe" ["allow"; "allowfullscreen"; "height"; "loading"; "name";
      "referrerpolicy"; "sandbox"; "src"; "srcdoc"; "width"];
  SClass "img" "ElementBase" [("tag", AStr "img")];
  SAddJs "img" ["alt"; "crossorigin"; "decoding"; "fetchpriority"; "height";
      "ismap"; "loading"; "referrerpolicy"; "sizes"; "src"; "width"];
  SClass "input_" "ElementBase" [("tag", AStr "input")];
  SAddJs "input_" ["accept"; "alt"; "autofocus"; "capture"; "checked";
      "dirname"; "disabled"; "form"; "formaction"; "formenctype";
      "formmethod"; "formnovalidate"; "formtarget"; "height"; "list"; "max";
      "maxlength"; "min"; "minlength"; "multiple"; "name"; "pattern";
      "placeholder"; "popovertarget"; "popovertargetaction"; "readonly";
      "required"; "size"; "src"; "step"; "type"; "value"; "width"];
  SClass "ins" "TextElementBase" [("tag", AStr "ins")];
  SAddJs "ins" ["cite"; "datetime"];
  SClass "kbd" "TextElementBase" [("tag", AStr "kbd")];
  SAddJs "kbd" [];
  SClass "label" "TextElementBase" [("tag", AStr "label")];
  SAddJs "label" ["for"];
  SClass "legend" "TextElementBase" [("tag", AStr "legend")];
  SAddJs "legend" [];
  SClass "li" "TextElementBase" [("tag", AStr "li")];
  SAddJs "li" ["value"];
  SClass "link" "TextElementBase" [("tag", AStr "link")];
  SAddJs "link" ["as"; "crossorigin"; "disabled"; "fetchpriority"; "href";
      "imagesizes"; "imagesrcset"; "integrity"; "media"; "rel";
      "referrerpolicy"; "sizes"; "title"; "type"];
  SClass "main" "TextElementBase" [("tag", AStr "main")];
  SAddJs "main" [];
  SClass "map_" "TextElementBase" [("tag", AStr "map")];
  SAddJs "map_" ["name"];
  SClass "mark" "TextElementBase" [("tag", AStr "mark")];
  SAddJs "mark" [];
  SClass "menu" "TextElementBase" [("tag", AStr "menu")];
  SAddJs "menu" [];
  SClass "map_" "TextElementBase" [("tag", AStr "map")];
  SAddJs "map_" ["name"];
  SClass "meter" "TextElementBase" [("tag", AStr "meter")];
  SAddJs "meter" ["form"; "high"; "low"; "max"; "min"; "optimum"; "value"];
  SClass "nav" "TextElementBase" [("tag", AStr "nav")];
  SAddJs "nav" [];
  SClass "object_" "TextElementBase" [("tag", AStr "object")];
  SAddJs "object_" ["data"; "form"; "height"; "name"; "type"; "usemap";
      "width"];
  SClass "ol" "TextElementBase" [("tag", AStr "ol")];
  SAddJs "ol" ["reversed"; "start"; "type"];
  SClass "optgroup" "TextElementBase" [("tag", AStr "optgroup")];
  SAddJs "optgroup" ["disabled"; "label"];
  SClass "option" "TextElementBase" [("tag", AStr "option")];
  SAddJs "option" ["disabled"; "label"; "selected"; "value"];
  SClass "output" "TextElementBase" [("tag", AStr "output")];
  SAddJs "output" ["for"; "form"; "name"];
  SClass "p" "TextElementBase" [("tag", AStr "p")];
  SAddJs "p" [];
  SClass "picture" "TextElementBase" [("tag", AStr "picture")];
  SAddJs "picture" [];
  SClass "pre" "TextElementBase" [("tag", AStr "pre")];
  SAddJs "pre" [];
  SClass "progress" "TextElementBase" [("tag", AStr "progress")];
  SAddJs "progress" ["max"; "value"];
  SClass "q" "TextElementBase" [("tag", AStr "q")];
  SAddJs "q" ["cite"];
  SClass "nav" "TextElementBase" [("tag", AStr "nav")];
  SAddJs "nav" [];
  SClass "s" "TextElementBase" [("tag", AStr "s")];
  SAddJs "s" [];
  SClass "script" "TextElementBase" [("tag", AStr "script");
      ("async_", js_property "async")];
  SAddJs "script" ["blocking"; "crossorigin"; "defer"; "fetchpriority";
      "integrity"; "nomodule"; "nonce"; "referrerpolicy"; "src"; "type"];
  SClass "section" "TextElementBase" [("tag", AStr "section")];
  SAddJs "section" [];
  SClass "select" "TextElementBase" [("tag", AStr "select")];
  SAddJs "select" [];
  SClass "small" "TextElementBase" [("tag", AStr "small")];
  SAddJs "small" [];
  SClass "source" "TextElementBase" [("tag", AStr "source")];
  SAddJs "source" ["type"; "src"; "srcset"; "sizes"; "media"];
  SClass "span" "TextElementBase" [("tag", AStr "span")];
  SClass "strong" "TextElementBase" [("tag", AStr "strong")];
  SAddJs "strong" [];
  SClass "style" "TextElementBase" [("tag", AStr "style")];
  SAddJs "style" ["blocking"; "media"; "nonce"; "title"];
  SClass "sub" "TextElementBase" [("tag", AStr "sub")];
  SClass "summary" "TextElementBase" [("tag", AStr "summary")];
  SClass "sup" "TextElementBase" [("tag", AStr "sup")];
  SClass "table" "TextElementBase" [("tag", AStr "table")];
  SClass "tbody" "TextElementBase" [("tag", AStr "tbody")];
  SClass "td" "TextElementBase" [("tag", AStr "td")];
  SClass "template" "TextElementBase" [("tag", AStr "template")];
  SClass "textarea" "TextElementBase" [("tag", AStr "textarea")];
  SClass "tfoot" "TextElementBase" [("tag", AStr "tfoot")];
  SClass "th" "TextElementBase" [("tag", AStr "th")];
  SClass "thead" "TextElementBase" [("tag", AStr "thead")];
  SClass "time" "TextElementBase" [("tag", AStr "time")];
  SClass "title" "TextElementBase" [("tag", AStr "title")];
  SClass "tr" "TextElementBase" [("tag", AStr "tr")];
  SClass "track" "TextElementBase" [("tag", AStr "track")];
  SClass "u" "TextElementBase" [("tag", AStr "u")];
  SClass "ul" "TextElementBase" [("tag", AStr "ul")];
  SClass "var" "TextElementBase" [("tag", AStr "var")];
  SClass "video" "TextElementBase" [("tag", AStr "video")];
  SClass "grid" "TextElementBase" [("tag", AStr "div");
      ("__init__", AInit grid_init)]
].

(** The classes the module leaves bound: class name to class object. *)
Definition elements : gmap string pyclass :=
  match exec_stmts initial_state module_body with
  | Some ms => delete "pydom.Element" (ms_names ms)
  | None => ∅
  end.

(** ** Python values and the DOM store *)

Abbreviation node_id := nat.

(** An instance of an element class: the class it was made from and the
    native node it wraps (the [_js] slot of [pydom.Element]). *)
Record instance := Instance { inst_class : pyclass; inst_js : node_id }.

#[local] Set Warnings "-register-all".
Inductive pyval :=
| VNone
| VBool (b : bool)
| VInt (z : Z)
| VStr (s : string)
| VList (items : list pyval)
| VElement (e : instance).

(** A style argument is a Python dictionary, iterated in insertion order. *)
Definition pydict := list (string * pyval).

(** A native node: its tag, its named properties, its inline style, its
    inner HTML once assigned, and the children appended to it. *)
Record node := Node {
  node_tag : string;
  node_props : gmap string pyval;
  node_style : gmap string pyval;
  node_html : option pyval;
  node_children : list pyval
}.

(** A node fresh from [document.createElement]. *)
Definition new_node (tag : string) : node := Node tag ∅ ∅ None [].

(** Calls made to the browser, in the order they are made. *)
Inductive event :=
| EvCreate (tag : string) (n : node_id)
| EvStyle (n : node_id) (key : string) (value : pyval)
| EvProp (n : node_id) (name : string) (value : pyval)
| EvAppend (n : node_id) (child : pyval)
| EvHtml (n : node_id) (value : pyval).

(** The store: the nodes created so far, a node's identity being its
    index, and the calls made so far. *)
Record dom := Dom { dom_nodes : list node; dom_trace : list event }.

Definition empty_dom : dom := Dom [] [].

(** The effect of one call on the node it is addressed to. *)
Definition apply_node (e : event) (nd : node) : node :=
  match e with
  | EvCreate _ _ => nd
  | EvStyle _ k v =>
      Node (node_tag nd) (node_props nd) (<[k := v]> (node_style nd))
           (node_html nd) (node_children nd)
  | EvProp _ k v =>
      Node (node_tag nd) (<[k := v]> (node_props nd)) (node_style nd)
           (node_html nd) (node_children nd)
  | EvAppend _ c =>
      Node (node_tag nd) (node_props nd) (node_style nd)
           (node_html nd) (node_children nd ++ [c])
  | EvHtml _ v =>
      Node (node_tag nd) (node_props nd) (node_style nd)
           (Some v) (node_children nd)
  end.

(** The node a call is addressed to, and its effect on the store. *)
Definition event_node (e : event) : node_id :=
  match e with
  | EvCreate _ n | EvStyle n _ _ | EvProp n _ _ | EvAppend n _ | EvHtml n _ => n
  end.

Definition apply_event (e : event) (nodes : list node) : list node :=
  match e with
  | EvCreate tag _ => nodes ++ [new_node tag]
  | _ => alter (apply_node e) (event_node e) nodes
  end.

(** ** The state monad of constructors

    A computation threads the DOM store; [None] stands for a Python
    exception. *)
Definition M (A : Type) : Type := dom -> option (A * dom).

Definition ret {A} (a : A) : M A := fun d => Some (a, d).

Definition bind {A B} (m : M A) (k : A -> M B) : M B :=
  fun d => match m d with
           | Some (a, d') => k a d'
           | None => None
           end.

Definition raise {A} : M A := fun _ => None.

Declare Scope py_scope.
Delimit Scope py_scope with py.
Notation "'do' x <- m ; k" := (bind m (fun x => k))
  (at level 10, x name, m at level 100, k at level 200) : py_scope.
Notation "'run' m ; k" := (bind m (fun _ => k))
  (at level 10, m at level 100, k at level 200) : py_scope.
Open Scope py_scope.

(** [for x in xs: body(x)] *)
Fixpoint for_each {A} (xs : list A) (body : A -> M unit) : M unit :=
  match xs with
  | [] => ret tt
  | x :: xs' => run body x; for_each xs' body
  end.

(** Record one call and perform it on the store. *)
Definition emit (e : event) : M unit :=
  fun d => Some (tt, Dom (apply_event e (dom_nodes d)) (dom_trace d ++ [e])).

(** ** The primitives of the host *)

(** Modelled from the spec: [document.createElement] is provided by the
    interpreter bridge, not by these sources; it creates a native element
    node of the given tag. *)
Definition createElement (tag : string) : M node_id :=
  fun d => let n := length (dom_nodes d) in
           bind (emit (EvCreate tag n)) (fun _ => ret n) d.

(** Modelled from the spec: the [JSProperty] descriptor is defined in
    [pyweb], outside these sources; it gets and sets a named property on
    the wrapped node. *)
Module JSProperty.
Definition __get__ (js_name : string) (self : instance) (d : dom)
  : option pyval :=
  nd ← dom_nodes d !! inst_js self; node_props nd !! js_name.

Definition __set__ (js_name : string) (self : instance) (value : pyval)
  : M unit :=
  emit (EvProp (inst_js self) js_name value).
End JSProperty.

(** Modelled from the spec: [pydom.Element] is defined in [pyweb], outside
    these sources.  Its constructor keeps the node it is given; [style] is
    the inline style of that node, [append] adds a child to it, and [html]
    is its inner HTML. *)
Module pydom_Element.
Definition __init__ (cls : pyclass) (js : node_id) : instance :=
  Instance cls js.

Definition style_setitem (self : instance) (key : string) (value : pyval)
  : M unit :=
  emit (EvStyle (inst_js self) key value).

Definition append (self : instance) (child : pyval) : M unit :=
  emit (EvAppend (inst_js self) child).

Definition set_html (self : instance) (value : pyval) : M unit :=
  emit (EvHtml (inst_js self) value).
End pydom_Element.

(** [getattr(self, name)] and [setattr(self, name, value)] for a name that
    the type resolves to a [JSProperty]: the descriptor is invoked.  Other
    names do not reach the DOM through this module. *)
Definition getattr (self : instance) (name : string) (d : dom) : option pyval :=
  match type_lookup (inst_class self) name with
  | Some (AJSProperty js_name) => JSProperty.__get__ js_name self d
  | _ => None
  end.

Definition setattr (self : instance) (name : string) (value : pyval) : M unit :=
  match type_lookup (inst_class self) name with
  | Some (AJSProperty js_name) => JSProperty.__set__ js_name self value
  | _ => ret tt
  end.

(** ** The constructors *)

Module ElementBase.
(** Every entry of the class's own dictionary that is a [JSProperty]
    and whose name is a key of [kwargs] is assigned. *)
Definition _init_properties (self : instance) (kwargs : gmap string pyval)
  : M unit :=
  for_each (cls_dict (inst_class self)) (fun '(attr_name, a) =>
    if is_JSProperty a then
      match kwargs !! attr_name with
      | Some value => setattr self attr_name value
      | None => ret tt
      end
    else ret tt).

Definition __init__ (cls : pyclass) (style : option pydict)
    (kwargs : gmap string pyval) : M instance :=
  do tag <- match class_tag cls with Some t => ret t | None => raise end;
  do js <- createElement tag;
  let self := pydom_Element.__init__ cls js in
  run match style with
      | Some ((_ :: _) as items) =>
          for_each items (fun '(key, value) =>
            pydom_Element.style_setitem self key value)
      | _ => ret tt
      end;
  run _init_properties self kwargs;
  ret self.
End ElementBase.

Module TextElementBase.
Definition __init__ (cls : pyclass) (content : pyval)
    (style : option pydict) (kwargs : gmap string pyval) : M instance :=
  do self <- ElementBase.__init__ cls style kwargs;
  run match content with
      | VElement _ => pydom_Element.append self content
      | VList items =>
          for_each items (fun item => pydom_Element.append self item)
      | VNone => ret tt
      | _ => pydom_Element.set_html self content
      end;
  ret self.
End TextElementBase.

(** The keyword [style] of a grid travels through [**kwargs] to the
    constructor of the base class; it is kept apart from the other
    keywords here. *)
Module grid.
Definition __init__ (cls : pyclass) (layout content gap : pyval)
    (style : option pydict) (kwargs : gmap string pyval) : M instance :=
  do self <- TextElementBase.__init__ cls content style kwargs;
  run pydom_Element.style_setitem self "display" (VStr "grid");
  run pydom_Element.style_setitem self "grid-template-columns" layout;
  run match gap with
      | VNone => ret tt
      | _ => pydom_Element.style_setitem self "gap" gap
      end;
  ret self.
End grid.

(** Calling a class: the constructor is the [__init__] found along the
    resolution order, and the arguments must fit its signature. *)
Inductive call_args :=
| ArgsElementBase (style : option pydict) (kwargs : gmap string pyval)
| ArgsTextElementBase (content : pyval) (style : option pydict)
    (kwargs : gmap string pyval)
| ArgsGrid (layout content gap : pyval) (style : option pydict)
    (kwargs : gmap string pyval).

Definition construct (cls : pyclass) (args : call_args) : M instance :=
  match init_of cls, args with
  | Some ElementBase_init, ArgsElementBase style kwargs =>
      ElementBase.__init__ cls style kwargs
  | Some TextElementBase_init, ArgsTextElementBase content style kwargs =>
      TextElementBase.__init__ cls content style kwargs
  | Some grid_init, ArgsGrid layout content gap style kwargs =>
      grid.__init__ cls layout content gap style kwargs
  | _, _ => raise
  end.

(** The class bound to a name of the module. *)
Definition the_class (name : string) : pyclass :=
  default PydomElement (elements !! name).

(** ** Closed forms of the calls a constructor makes *)

(** Perform a sequence of calls on the store. *)
Definition replay (es : list event) (d : dom) : dom :=
  Dom (foldl (fun ns e => apply_event e ns) (dom_nodes d) es)
      (dom_trace d ++ es).

(** [self.style[key] = value] for each pair of a non-empty style. *)
Definition style_calls (js : node_id) (style : option pydict) : list event :=
  match style with
  | Some items => map (fun '(key, value) => EvStyle js key value) items
  | None => []
  end.

(** What [setattr(self, name, value)] sends to the node. *)
Definition setattr_calls (self : instance) (name : string) (value : pyval)
  : list event :=
  match type_lookup (inst_class self) name with
  | Some (AJSProperty js_name) => [EvProp (inst_js self) js_name value]
  | _ => []
  end.

(** The assignments of [_init_properties], in class dictionary order. *)
Definition property_calls (self : instance) (kwargs : gmap string pyval)
  : list event :=
  flat_map (fun '(attr_name, a) =>
    if is_JSProperty a then
      match kwargs !! attr_name with
      | Some value => setattr_calls self attr_name value
      | None => []
      end
    else []) (cls_dict (inst_class self)).

(** The insertion of the content by [TextElementBase.__init__]. *)
Definition content_calls (js : node_id) (content : pyval) : list event :=
  match content with
  | VElement _ => [EvAppend js content]
  | VList items => map (EvAppend js) items
  | VNone => []
  | _ => [EvHtml js content]
  end.

(** What the body of [grid.__init__] adds after base construction. *)
Definition grid_calls (js : node_id) (layout gap : pyval) : list event :=
  [EvStyle js "display" (VStr "grid");
   EvStyle js "grid-template-columns" layout]
  ++ match gap with VNone => [] | _ => [EvStyle js "gap" gap] end.

(** The call is a [document.createElement]. *)
Definition is_create (e : event) : bool :=
  match e with EvCreate _ _ => true | _ => false end.

(** The name is a [JSProperty] entry of the class's own dictionary. *)
Definition own_JSProperty (cls : pyclass) (name : string) : bool :=
  existsb (fun '(k, a) => bool_decide (k = name) && is_JSProperty a)
          (cls_dict cls).

(** The arguments fit the signature of the constructor. *)
Definition args_fit (f : init_fn) (args : call_args) : bool :=
  match f, args with
  | ElementBase_init, ArgsElementBase _ _
  | TextElementBase_init, ArgsTextElementBase _ _ _
  | grid_init, ArgsGrid _ _ _ _ _ => true
  | _, _ => false
  end.

(** The keywords collected by [**kwargs], and their replacement. *)
Definition args_kwargs (args : call_args) : gmap string pyval :=
  match args with
  | ArgsElementBase _ kw | ArgsTextElementBase _ _ kw
  | ArgsGrid _ _ _ _ kw => kw
  end.


(** ** Notions used to state the properties *)

(** The calls made by [ElementBase.__init__] and [TextElementBase.__init__],
    in the order they are made. *)
Definition ElementBase_calls (cls : pyclass) (tag : string) (js : node_id)
    (style : option pydict) (kwargs : gmap string pyval) : list event :=
  EvCreate tag js :: style_calls js style
    ++ property_calls (Instance cls js) kwargs.

Definition TextElementBase_calls (cls : pyclass) (tag : string) (js : node_id)
    (content : pyval) (style : option pydict) (kwargs : gmap string pyval)
  : list event :=
  ElementBase_calls cls tag js style kwargs ++ content_calls js content.

(** A call addressed to node [n] that does not create a node. *)
Definition on_node (n : node_id) (e : event) : Prop :=
  event_node e = n /\ is_create e = false.

(** Appending the items of a list, one after the other, to a node. *)
Definition append_all (n : node_id) (items : list pyval) (nd : node) : node :=
  foldl (fun nd e => apply_node e nd) nd (map (EvAppend n) items).

(** The order C1 announces: creation, style, content, properties. *)
Definition claimed_rank (e : event) : nat :=
  match e with
  | EvCreate _ _ => 0
  | EvStyle _ _ _ => 1
  | EvAppend _ _ | EvHtml _ _ => 2
  | EvProp _ _ _ => 3
  end.

(** A sequence of calls never steps back in that order. *)
Definition in_claimed_order (tr : list event) : Prop :=
  forall i j ei ej,
    tr !! i = Some ei -> tr !! j = Some ej -> i < j ->
    claimed_rank ei <= claimed_rank ej.

(** The claim of C3 read as a statement about the class after the call:
    its [JSProperty] attributes are exactly the given names, each bound
    to its own name. *)
Definition exposes_exactly (cls : pyclass) (names : list string) : Prop :=
  forall name js,
    dict_get (cls_dict cls) name = Some (AJSProperty js)
    <-> name ∈ names /\ js = name.

(** The class object bound by the statement [class script], and the
    extra names of the call [_add_js_properties(script, ...)]. *)
Definition script_statement : pyclass :=
  PyClass "script" (the_class "TextElementBase")
          [("tag", AStr "script"); ("async_", js_property "async")].

Definition script_attrs : list string :=
  ["blocking"; "crossorigin"; "defer"; "fetchpriority"; "integrity";
   "nomodule"; "nonce"; "referrerpolicy"; "src"; "type"].

(** The docstring of a constructor once the module body has run. *)
Definition final_init_doc (f : init_fn) : option docstring :=
  ms ← exec_stmts initial_state module_body; ms_init_doc ms f.

(** The class resolves a tag and a constructor. *)
Definition has_tag_and_init (c : pyclass) : bool :=
  match class_tag c, init_of c with Some _, Some _ => true | _, _ => false end.

(** Every [JSProperty] of the class is bound to the name of the class
    attribute that holds it, except [script.async_], bound to ["async"]. *)
Definition bound_to_own_name (cname : string) (c : pyclass) : bool :=
  forallb (fun '(k, a) =>
    match a with
    | AJSProperty js =>
        bool_decide (js = k)
        || (bool_decide (cname = "script") && bool_decide (k = "async_")
            && bool_decide (js = "async"))
    | _ => true
    end) (cls_dict c).

(** C5 read on the classes the module leaves bound: classes that have
    the same tag are the same class. *)
Definition tags_one_to_one (ns : gmap string pyclass) : Prop :=
  forall n1 n2 c1 c2,
    ns !! n1 = Some c1 -> ns !! n2 = Some c2 ->
    class_tag c1 = class_tag c2 -> n1 = n2.

(** The tags written in the class statements, in source order. *)
Definition statement_tags (ss : list stmt) : list string :=
  flat_map (fun s =>
    match s with
    | SClass _ _ body =>
        match dict_get body "tag" with Some (AStr t) => [t] | _ => [] end
    | SAddJs _ _ => []
    end) ss.

(** The classes that carry the tag ["div"] besides [div] itself: the two
    base classes and the custom element [grid]. *)
Definition div_sharers : list string :=
  ["ElementBase"; "TextElementBase"; "grid"].

(** Both classes have a tag; the tags differ unless the names agree or
    one of the classes is a sharer of ["div"]; a sharer has tag ["div"]. *)
Definition tags_checked (p1 p2 : string * pyclass) : bool :=
  match class_tag p1.2, class_tag p2.2 with
  | Some t1, Some t2 =>
      (bool_decide (p1.1 ∈ div_sharers) || bool_decide (p2.1 ∈ div_sharers)
       || negb (bool_decide (t1 = t2)) || bool_decide (p1.1 = p2.1))
      && (negb (bool_decide (p1.1 ∈ div_sharers)) || bool_decide (t1 = "div"))
  | _, _ => false
  end.

(** The class resolves the name to a typed property. *)
Definition recognizes (cls : pyclass) (name : string) : bool :=
  match type_lookup cls name with
  | Some (AJSProperty _) => true
  | _ => false
  end.

(** The classes of the module that [_add_js_properties] is never called
    on, in source order. *)
Definition unharvested : list string :=
  ["a"; "span"; "sub"; "summary"; "sup"; "table"; "tbody"; "td"; "template";
   "textarea"; "tfoot"; "th"; "thead"; "time"; "title"; "tr"; "track"; "u";
   "ul"; "var"; "video"; "grid"].

(** ** Notions used by the further properties *)

(** The whole of [_add_js_properties(cls, *attrs)]: the two [setattr]
    loops on the class and then its last statement, which writes into
    the docstring of [cls.__init__] the tag of the class and the extra
    names as they were passed.  [None] stands for the [AttributeError]
    of a class that resolves no constructor or no tag. *)
Definition _add_js_properties_call (cls : pyclass) (attrs : list string)
    (docs : init_fn -> option docstring)
  : option (pyclass * (init_fn -> option docstring)) :=
  let cls' := _add_js_properties cls attrs in
  f ← init_of cls';
  t ← class_tag cls';
  Some (cls', patch_init_doc f (Doc t attrs) docs).

(** The names under which a dictionary holds an entry, in order. *)
Definition keys {A} (d : list (string * A)) : list string := d.*1.

(** The node properties that the [JSProperty] entries of a class
    dictionary are bound to, in order. *)
Definition bound_names (d : list (string * attr)) : list string :=
  omap (fun '(_, a) =>
    match a with AJSProperty js => Some js | _ => None end) d.

(** One assignment per [JSProperty] entry whose name is a key of
    [kwargs], in dictionary order. *)
Definition supplied_assignments (js : node_id) (kwargs : gmap string pyval)
    (d : list (string * attr)) : list event :=
  omap (fun '(k, a) =>
    match a with
    | AJSProperty p => EvProp js p <$> kwargs !! k
    | _ => None
    end) d.

(** The style and content parameters of a call; a class constructed by
    [ElementBase.__init__] has no content parameter. *)
Definition args_style (args : call_args) : option pydict :=
  match args with
  | ArgsElementBase s _ | ArgsTextElementBase _ s _ | ArgsGrid _ _ _ s _ => s
  end.

Definition args_content (args : call_args) : pyval :=
  match args with
  | ArgsElementBase _ _ => VNone
  | ArgsTextElementBase c _ _ | ArgsGrid _ c _ _ _ => c
  end.

(** The calls a constructor makes after the property assignments. *)
Definition tail_calls (js : node_id) (args : call_args) : list event :=
  match args with
  | ArgsElementBase _ _ => []
  | ArgsTextElementBase c _ _ => content_calls js c
  | ArgsGrid l c g _ _ => content_calls js c ++ grid_calls js l g
  end.

(** All the calls of a construction, in the order they are made. *)
Definition construct_trace (cls : pyclass) (tag : string) (js : node_id)
    (args : call_args) : list event :=
  EvCreate tag js
    :: style_calls js (args_style args)
    ++ property_calls (Instance cls js) (args_kwargs args)
    ++ tail_calls js args.

(** The children and the html that a content value gives a new element. *)
Definition content_children (content : pyval) : list pyval :=
  match content with
  | VElement _ => [content]
  | VList items => items
  | _ => []
  end.

Definition content_html (content : pyval) : option pyval :=
  match content with
  | VElement _ | VList _ | VNone => None
  | _ => Some content
  end.

(** The effect of a call on the properties, and on the style, of the
    node it is addressed to. *)
Definition assign_prop (m : gmap string pyval) (e : event) : gmap string pyval :=
  match e with EvProp _ k v => <[k := v]> m | _ => m end.

Definition assign_style (m : gmap string pyval) (e : event) : gmap string pyval :=
  match e with EvStyle _ k v => <[k := v]> m | _ => m end.

(** The kinds of calls: property assignment, style assignment, content
    insertion. *)
Definition is_prop_call (e : event) : bool :=
  match e with EvProp _ _ _ => true | _ => false end.

Definition is_style_call (e : event) : bool :=
  match e with EvStyle _ _ _ => true | _ => false end.

Definition is_content_call (e : event) : bool :=
  match e with EvAppend _ _ | EvHtml _ _ => true | _ => false end.

(** Some [JSProperty] entry of the dictionary is bound to [js]. *)
Definition binds (js : string) (d : list (string * attr)) : bool :=
  existsb (fun '(_, a) =>
    match a with AJSProperty p => bool_decide (p = js) | _ => false end) d.

(** Class dictionaries with distinct keys whose [JSProperty] entries are
    bound to distinct node properties. *)
Definition well_keyed (c : pyclass) : bool :=
  bool_decide (NoDup (keys (cls_dict c)))
  && bool_decide (NoDup (bound_names (cls_dict c))).

(** * Properties *)

(** Closed facts about the module are settled by evaluating it. *)
Ltac by_evaluation := vm_compute; reflexivity.

(** ** Ordered dictionaries *)

Section dict.
Context {A : Type}.
Implicit Types (d : list (string * A)) (k : string) (v : A).

Lemma dict_get_set_eq d k v : dict_get (dict_set d k v) k = Some v.
Proof.
  induction d as [|[k' v'] d IH]; simpl.
  - by rewrite decide_True.
  - destruct (decide (k' = k)) as [->|Hne]; simpl.
    + by rewrite decide_True.
    + by rewrite decide_False.
Qed.

Lemma dict_get_set_ne d k k' v :
  k ≠ k' -> dict_get (dict_set d k v) k' = dict_get d k'.
Proof.
  intros Hne. induction d as [|[k0 v0] d IH]; simpl.
  - by rewrite decide_False.
  - destruct (decide (k0 = k)) as [->|Hne0]; simpl.
    + by rewrite !decide_False.
    + destruct (decide (k0 = k')); [done | apply IH].
Qed.

Lemma dict_get_foldl_set (f : string -> A) (ks : list string) d k :
  dict_get (foldl (fun d a => dict_set d a (f a)) d ks) k
  = if decide (k ∈ ks) then Some (f k) else dict_get d k.
Proof.
  revert d. induction ks as [|a ks IH]; intros d.
  - destruct (decide (k ∈ [])) as [Hin|_]; [by apply elem_of_nil in Hin | done].
  - change (foldl _ d (a :: ks)) with
      (foldl (fun d a => dict_set d a (f a)) (dict_set d a (f a)) ks).
    rewrite IH.
    destruct (decide (k ∈ ks)) as [Hin|Hnin],
             (decide (k ∈ a :: ks)) as [Hin'|Hnin']; try done.
    + exfalso. apply Hnin'. by apply elem_of_cons; right.
    + apply elem_of_cons in Hin' as [->|?]; [apply dict_get_set_eq | done].
    + apply dict_get_set_ne. intros ->. apply Hnin'. by apply elem_of_cons; left.
Qed.
End dict.

(** ** The harvesting routine *)

Lemma setattr_class_foldl (f : string -> attr) ks n b d :
  foldl (fun c a => setattr_class c a (f a)) (PyClass n b d) ks
  = PyClass n b (foldl (fun d a => dict_set d a (f a)) d ks).
Proof. revert d. induction ks as [|a ks IH]; intros d; [done | apply IH]. Qed.

Lemma add_js_properties_dict n b d attrs :
  _add_js_properties (PyClass n b d) attrs
  = PyClass n b (foldl (fun d a => dict_set d a (js_property a)) d
                       (GLOBAL_ATTRIBUTES ++ attrs)).
Proof.
  unfold _add_js_properties. by rewrite !setattr_class_foldl, foldl_app.
Qed.

Lemma script_in_module :
  elements !! "script"
  = Some (_add_js_properties script_statement script_attrs).
Proof. by_evaluation. Qed.

(** C3, as stated, fails on the class [script]: after the call made by
    the module the class still carries [async_], a [JSProperty] that is
    neither global nor among the extras and that is bound to ["async"]. *)
Lemma C3_script_counterexample :
  dict_get (cls_dict (_add_js_properties script_statement script_attrs))
           "async_" = Some (AJSProperty "async")
  /\ ~ exposes_exactly (_add_js_properties script_statement script_attrs)
                       (GLOBAL_ATTRIBUTES ++ script_attrs).
Proof.
  assert (H : dict_get (cls_dict (_add_js_properties script_statement
                                    script_attrs)) "async_"
              = Some (AJSProperty "async")) by by_evaluation.
  split; [exact H |].
  intros Hex. apply Hex in H as [_ Heq]. discriminate Heq.
Qed.

(** C3 (amended): [_add_js_properties(cls, *attrs)] leaves the name and
    the base of the class alone; afterwards every name of
    [GLOBAL_ATTRIBUTES] and of [attrs] is a [JSProperty] bound to that
    very name, and every other class attribute is what it was before.
    Hence a class that had no [JSProperty] before the call has exactly
    those afterwards. *)
Theorem C3_add_js_properties_installs (n : string) (b : pyclass)
    (d : list (string * attr)) (attrs : list string) :
  exists d',
    _add_js_properties (PyClass n b d) attrs = PyClass n b d'
    /\ (forall name,
          dict_get d' name
          = if decide (name ∈ GLOBAL_ATTRIBUTES ++ attrs)
            then Some (AJSProperty name) else dict_get d name)
    /\ ((forall name js, dict_get d name <> Some (AJSProperty js)) ->
        exposes_exactly (PyClass n b d') (GLOBAL_ATTRIBUTES ++ attrs)).
Proof.
  eexists. split; [apply add_js_properties_dict |].
  assert (Hget : forall name,
    dict_get (foldl (fun d a => dict_set d a (js_property a)) d
                    (GLOBAL_ATTRIBUTES ++ attrs)) name
    = if decide (name ∈ GLOBAL_ATTRIBUTES ++ attrs)
      then Some (AJSProperty name) else dict_get d name).
  { intros name. apply (dict_get_foldl_set js_property). }
  split; [exact Hget |].
  intros Hnone name js. simpl. rewrite Hget.
  destruct (decide (name ∈ GLOBAL_ATTRIBUTES ++ attrs)) as [Hin|Hnin].
  - split; [intros [= <-]; done | intros [_ ->]; done].
  - split; [intros H; by apply Hnone in H | intros [Hin _]; done].
Qed.

Lemma C3_add_js_properties_installs_witness :
  exposes_exactly
    (_add_js_properties (PyClass "abbr" PydomElement [("tag", AStr "abbr")]) [])
    (GLOBAL_ATTRIBUTES ++ []).
Proof.
  destruct (C3_add_js_properties_installs "abbr" PydomElement
              [("tag", AStr "abbr")] []) as (d' & -> & _ & Hex).
  apply Hex. intros name js. simpl.
  destruct (decide ("tag" = name)); discriminate.
Defined.

(** ** Running computations *)

Lemma replay_nil d : replay [] d = d.
Proof. destruct d as [ns tr]. unfold replay; simpl. by rewrite app_nil_r. Qed.

Lemma replay_app es1 es2 d :
  replay (es1 ++ es2) d = replay es2 (replay es1 d).
Proof. unfold replay; simpl. by rewrite foldl_app, app_assoc. Qed.

Lemma replay_trace es d : dom_trace (replay es d) = dom_trace d ++ es.
Proof. done. Qed.

Lemma emit_replay e d : emit e d = Some (tt, replay [e] d).
Proof. done. Qed.

Lemma for_each_replay {A} (body : A -> M unit) (calls : A -> list event) xs :
  (forall x d, body x d = Some (tt, replay (calls x) d)) ->
  forall d, for_each xs body d = Some (tt, replay (flat_map calls xs) d).
Proof.
  intros Hbody. induction xs as [|x xs IH]; intros d; simpl.
  - by rewrite replay_nil.
  - unfold bind. by rewrite Hbody, IH, replay_app.
Qed.

Lemma for_each_emit {A} (body : A -> M unit) (f : A -> event) xs :
  (forall x d, body x d = emit (f x) d) ->
  forall d, for_each xs body d = Some (tt, replay (map f xs) d).
Proof.
  intros Hbody d.
  rewrite (for_each_replay body (fun x => [f x])).
  - replace (flat_map (fun x => [f x]) xs) with (map f xs); [done |].
    induction xs as [|x xs IH]; simpl; by f_equal.
  - intros x d'. by rewrite Hbody.
Qed.

Lemma setattr_replay self name value d :
  setattr self name value d
  = Some (tt, replay (setattr_calls self name value) d).
Proof.
  unfold setattr, setattr_calls.
  destruct (type_lookup (inst_class self) name) as [[]|];
    by rewrite ?replay_nil.
Qed.

Lemma init_properties_replay self kwargs d :
  ElementBase._init_properties self kwargs d
  = Some (tt, replay (property_calls self kwargs) d).
Proof.
  unfold ElementBase._init_properties, property_calls.
  apply for_each_replay. intros [attr_name a] d'.
  destruct (is_JSProperty a); [|by rewrite replay_nil].
  destruct (kwargs !! attr_name); [apply setattr_replay | by rewrite replay_nil].
Qed.

Lemma style_loop_replay self style d :
  match style with
  | Some ((_ :: _) as items) =>
      for_each items (fun '(key, value) =>
        pydom_Element.style_setitem self key value)
  | _ => ret tt
  end d = Some (tt, replay (style_calls (inst_js self) style) d).
Proof.
  destruct style as [[|kv items]|]; simpl style_calls;
    [by rewrite replay_nil | | by rewrite replay_nil].
  apply (for_each_emit _ (fun '(key, value) => EvStyle (inst_js self) key value)).
  by intros [key value] d'.
Qed.

Lemma ElementBase_init_replay cls tag style kwargs d :
  class_tag cls = Some tag ->
  ElementBase.__init__ cls style kwargs d
  = Some (Instance cls (length (dom_nodes d)),
          replay (ElementBase_calls cls tag (length (dom_nodes d)) style kwargs) d).
Proof.
  intros Htag. unfold ElementBase.__init__, ElementBase_calls. rewrite Htag.
  unfold bind at 1. unfold ret at 1.
  unfold bind at 1. unfold createElement at 1.
  unfold bind at 1. rewrite emit_replay. unfold ret at 1.
  unfold pydom_Element.__init__.
  set (self := Instance cls (length (dom_nodes d))).
  unfold bind at 1.
  rewrite (style_loop_replay self style).
  unfold bind at 1. rewrite init_properties_replay. unfold ret.
  by rewrite <- !replay_app.
Qed.


Lemma content_dispatch_replay self content d :
  match content with
  | VElement _ => pydom_Element.append self content
  | VList items => for_each items (fun item => pydom_Element.append self item)
  | VNone => ret tt
  | _ => pydom_Element.set_html self content
  end d = Some (tt, replay (content_calls (inst_js self) content) d).
Proof.
  destruct content; simpl content_calls;
    try done; [by rewrite replay_nil |].
  by apply (for_each_emit _ (EvAppend (inst_js self))).
Qed.

Lemma TextElementBase_init_replay cls tag content style kwargs d :
  class_tag cls = Some tag ->
  TextElementBase.__init__ cls content style kwargs d
  = Some (Instance cls (length (dom_nodes d)),
          replay (TextElementBase_calls cls tag (length (dom_nodes d))
                    content style kwargs) d).
Proof.
  intros Htag. unfold TextElementBase.__init__, TextElementBase_calls.
  unfold bind at 1. rewrite (ElementBase_init_replay _ tag) by done.
  unfold bind at 1.
  rewrite (content_dispatch_replay (Instance cls (length (dom_nodes d)))).
  unfold ret. by rewrite <- replay_app.
Qed.

Lemma grid_init_replay cls tag layout content gap style kwargs d :
  class_tag cls = Some tag ->
  grid.__init__ cls layout content gap style kwargs d
  = Some (Instance cls (length (dom_nodes d)),
          replay (TextElementBase_calls cls tag (length (dom_nodes d))
                    content style kwargs
                  ++ grid_calls (length (dom_nodes d)) layout gap) d).
Proof.
  intros Htag. unfold grid.__init__.
  unfold bind at 1. rewrite (TextElementBase_init_replay _ tag) by done.
  rewrite replay_app. unfold grid_calls. rewrite replay_app.
  unfold bind, pydom_Element.style_setitem; rewrite !emit_replay.
  simpl inst_js. rewrite <- (replay_app [_] [_]). simpl app.
  destruct gap; unfold ret; rewrite ?emit_replay, ?replay_nil; done.
Qed.

(** ** Calls and the nodes they touch *)

Lemma style_calls_on_node n style : Forall (on_node n) (style_calls n style).
Proof.
  destruct style as [items|]; [|constructor].
  induction items as [|[k v] items IH]; constructor; [by split | exact IH].
Qed.

Lemma setattr_calls_on_node self name v :
  Forall (on_node (inst_js self)) (setattr_calls self name v).
Proof.
  unfold setattr_calls.
  destruct (type_lookup (inst_class self) name) as [[]|];
    repeat constructor.
Qed.

Lemma property_calls_on_node self kwargs :
  Forall (on_node (inst_js self)) (property_calls self kwargs).
Proof.
  unfold property_calls.
  induction (cls_dict (inst_class self)) as [|[k a] items IH];
    [constructor|].
  simpl. apply Forall_app. split; [|exact IH].
  destruct (is_JSProperty a); [|constructor].
  destruct (kwargs !! k); [apply setattr_calls_on_node | constructor].
Qed.

Lemma content_calls_on_node n content :
  Forall (on_node n) (content_calls n content).
Proof.
  destruct content; simpl; repeat constructor.
  induction items as [|c items IH]; constructor; [by split | exact IH].
Qed.

Lemma grid_calls_on_node n layout gap :
  Forall (on_node n) (grid_calls n layout gap).
Proof. destruct gap; repeat constructor. Qed.

Create HintDb calls.
#[local] Hint Resolve style_calls_on_node property_calls_on_node
  content_calls_on_node grid_calls_on_node : calls.

Lemma on_node_not_create n es :
  Forall (on_node n) es -> Forall (fun e => is_create e = false) es.
Proof. intros H. eapply Forall_impl; [exact H |]. by intros e [_ ?]. Qed.

Lemma apply_node_tag e nd : node_tag (apply_node e nd) = node_tag nd.
Proof. by destruct e. Qed.

(** No call removes a node or changes its tag. *)
Lemma apply_event_keeps e (ns : list node) n nd :
  ns !! n = Some nd ->
  exists nd', apply_event e ns !! n = Some nd' /\ node_tag nd' = node_tag nd.
Proof.
  intros Hn.
  assert (Halter : forall f m, (forall x, node_tag (f x) = node_tag x) ->
            exists nd', alter f m ns !! n = Some nd'
                        /\ node_tag nd' = node_tag nd).
  { intros f m Hf. destruct (decide (m = n)) as [->|Hne].
    - exists (f nd). by rewrite list_lookup_alter_eq, Hn.
    - exists nd. by rewrite list_lookup_alter_ne. }
  destruct e; simpl;
    try (apply Halter; intros x; apply (apply_node_tag _ x)).
  exists nd. split; [|done].
  rewrite lookup_app_l; [done | by eapply lookup_lt_Some].
Qed.

Lemma replay_keeps es d n nd :
  dom_nodes d !! n = Some nd ->
  exists nd', dom_nodes (replay es d) !! n = Some nd'
              /\ node_tag nd' = node_tag nd.
Proof.
  unfold replay; cbn [dom_nodes]. generalize (dom_nodes d) as ns. revert nd.
  induction es as [|e es IH]; intros nd ns Hn; cbn [foldl]; [by exists nd|].
  destruct (apply_event_keeps e ns n nd Hn) as (nd1 & Hn1 & Htag1).
  destruct (IH nd1 _ Hn1) as (nd2 & Hn2 & Htag2).
  exists nd2. split; [done | congruence].
Qed.

(** Calls addressed to one node act on that node alone. *)
Lemma replay_on_node es d n nd :
  Forall (on_node n) es ->
  dom_nodes d !! n = Some nd ->
  dom_nodes (replay es d) !! n
  = Some (foldl (fun nd e => apply_node e nd) nd es).
Proof.
  unfold replay; cbn [dom_nodes]. generalize (dom_nodes d) as ns. revert nd.
  induction es as [|e es IH]; intros nd ns Hes Hn; cbn [foldl]; [done|].
  apply Forall_cons in Hes as [[Hnode Hcreate] Hes].
  apply IH; [done|].
  destruct e; try discriminate; cbn [event_node] in Hnode; subst;
    cbn [apply_event event_node]; by rewrite list_lookup_alter_eq, Hn.
Qed.

Lemma replay_create tag d :
  dom_nodes (replay [EvCreate tag (length (dom_nodes d))] d)
    !! length (dom_nodes d) = Some (new_node tag).
Proof. unfold replay; simpl. apply list_lookup_middle. done. Qed.

Lemma dict_get_elem {A} (d : list (string * A)) k v :
  dict_get d k = Some v -> (k, v) ∈ d.
Proof.
  induction d as [|[k' v'] d IH]; simpl; [done|].
  destruct (decide (k' = k)) as [->|_].
  - intros [= ->]. by left.
  - intros H. right. by apply IH.
Qed.

(** ** Facts about the classes of the module, by evaluation *)

Lemma elements_all (Q : string -> pyclass -> bool) :
  forallb (fun p => Q p.1 p.2) (map_to_list elements) = true ->
  forall n c, elements !! n = Some c -> Q n c = true.
Proof.
  intros Hall n c Hn.
  apply elem_of_map_to_list, list_elem_of_In in Hn.
  rewrite forallb_forall in Hall. apply (Hall (n, c) Hn).
Qed.

Lemma elements_tag_init n c :
  elements !! n = Some c ->
  exists tag f, class_tag c = Some tag /\ init_of c = Some f.
Proof.
  intros Hn.
  assert (Hall : forallb (fun p => has_tag_and_init p.2)
                         (map_to_list elements) = true)
    by by_evaluation.
  apply (elements_all (fun _ c => has_tag_and_init c) Hall) in Hn.
  clear Hall. unfold has_tag_and_init in Hn.
  destruct (class_tag c) as [tag|], (init_of c) as [f|]; try discriminate Hn.
  exists tag, f. split; reflexivity.
Qed.

(** The module body runs to its end; it leaves 97 classes bound, each
    under its own name. *)
Lemma module_executes :
  is_Some (exec_stmts initial_state module_body) /\ size elements = 97.
Proof.
  split; [|by_evaluation].
  assert (H : bool_decide (is_Some (exec_stmts initial_state module_body))
              = true) by by_evaluation.
  exact (bool_decide_eq_true_1 _ H).
Qed.

Lemma elements_names n c : elements !! n = Some c -> cls_name c = n.
Proof.
  intros Hn.
  assert (Hall : forallb (fun p => bool_decide (cls_name p.2 = p.1))
                         (map_to_list elements) = true)
    by by_evaluation.
  apply (elements_all (fun n c => bool_decide (cls_name c = n)) Hall) in Hn.
  clear Hall. exact (bool_decide_eq_true_1 _ Hn).
Qed.

(** The constructors are shared function objects: each harvesting call
    overwrites the docstring of the constructor its class inherits, so
    at the end [TextElementBase.__init__] documents [style] and
    [ElementBase.__init__] documents [input]; the constructor of [grid]
    is never documented. *)
Lemma init_docstrings_shared :
  final_init_doc TextElementBase_init
  = Some (Doc "style" ["blocking"; "media"; "nonce"; "title"])
  /\ doc_tag <$> final_init_doc ElementBase_init = Some "input"
  /\ final_init_doc grid_init = None.
Proof. repeat split; by_evaluation. Qed.

(** ** C1: the order of the construction steps *)

(** C1, as stated, fails: [div("hi", style={"color": "red"}, id="x")]
    assigns the property [id] before it inserts the content. *)
Lemma C1_order_counterexample :
  exists self d',
    construct (the_class "div")
      (ArgsTextElementBase (VStr "hi") (Some [("color", VStr "red")])
                           {[ "id" := VStr "x" ]}) empty_dom
    = Some (self, d')
    /\ dom_trace d' = [EvCreate "div" 0; EvStyle 0 "color" (VStr "red");
                       EvProp 0 "id" (VStr "x"); EvHtml 0 (VStr "hi")]
    /\ ~ in_claimed_order (dom_trace d').
Proof.
  eexists _, _. split; [by_evaluation |].
  split; [reflexivity |].
  intros Hord.
  specialize (Hord 2 3 _ _ eq_refl eq_refl ltac:(lia)).
  simpl in Hord. lia.
Qed.

(** C1 (amended): constructing an element with a style dictionary, a
    content value and keyword arguments creates the node, then sets each
    style pair in dictionary order, then assigns each supplied property
    that is a [JSProperty] of the class's own dictionary, and only then
    inserts the content. *)
Theorem C1_construction_order (cls : pyclass) (tag : string)
    (content : pyval) (style : option pydict) (kwargs : gmap string pyval)
    (d : dom) :
  class_tag cls = Some tag ->
  exists self d',
    TextElementBase.__init__ cls content style kwargs d = Some (self, d')
    /\ inst_js self = length (dom_nodes d)
    /\ dom_trace d'
       = dom_trace d
         ++ [EvCreate tag (inst_js self)]
         ++ style_calls (inst_js self) style
         ++ property_calls self kwargs
         ++ content_calls (inst_js self) content
    /\ (forall name js value,
          dict_get (cls_dict cls) name = Some (AJSProperty js) ->
          kwargs !! name = Some value ->
          EvProp (inst_js self) js value ∈ property_calls self kwargs).
Proof.
  intros Htag. eexists _, _.
  split; [by apply (TextElementBase_init_replay _ tag) |].
  split; [done |]. split.
  - rewrite replay_trace. unfold TextElementBase_calls, ElementBase_calls.
    simpl. by rewrite <- !app_assoc.
  - intros name js value Hget Hkw.
    unfold property_calls. apply list_elem_of_In, in_flat_map.
    exists (name, AJSProperty js). split.
    + by apply list_elem_of_In, dict_get_elem.
    + simpl. rewrite Hkw. unfold setattr_calls; simpl.
      destruct cls as [|n b dict]; [discriminate Hget |].
      simpl in *. rewrite Hget. by left.
Qed.

Lemma C1_construction_order_witness :
  exists self d',
    TextElementBase.__init__
      (PyClass "p" PydomElement [("tag", AStr "p"); ("id", js_property "id")])
      (VStr "hi") (Some [("color", VStr "red")]) {[ "id" := VStr "x" ]}
      empty_dom = Some (self, d')
    /\ dom_trace d' = [EvCreate "p" 0; EvStyle 0 "color" (VStr "red");
                       EvProp 0 "id" (VStr "x"); EvHtml 0 (VStr "hi")].
Proof.
  destruct (C1_construction_order
              (PyClass "p" PydomElement
                       [("tag", AStr "p"); ("id", js_property "id")])
              "p" (VStr "hi") (Some [("color", VStr "red")])
              {[ "id" := VStr "x" ]} empty_dom eq_refl)
    as (self & d' & Hrun & Hjs & Htrace & _).
  exists self, d'. split; [exact Hrun |].
  rewrite Htrace, Hjs.
  injection Hrun as <- _. reflexivity.
Defined.

(** ** C2: one wrapped node per instance *)

(** What any constructor of the module does, whatever the arguments:
    it creates one node of the class's tag and then only addresses that
    node. *)
Lemma construct_calls cls tag f args d :
  class_tag cls = Some tag ->
  init_of cls = Some f ->
  args_fit f args = true ->
  exists rest,
    construct cls args d
    = Some (Instance cls (length (dom_nodes d)),
            replay (EvCreate tag (length (dom_nodes d)) :: rest) d)
    /\ Forall (on_node (length (dom_nodes d))) rest.
Proof.
  intros Htag Hinit Hfit. unfold construct. rewrite Hinit.
  destruct f, args; try discriminate Hfit; clear Hfit.
  - eexists. split; [by apply (ElementBase_init_replay _ tag) |].
    rewrite Forall_app. split; [auto with calls |].
    apply (property_calls_on_node (Instance cls _)).
  - eexists. split; [by apply (TextElementBase_init_replay _ tag) |].
    rewrite !Forall_app. repeat split; [auto with calls | | auto with calls].
    apply (property_calls_on_node (Instance cls _)).
  - eexists. split; [by apply (grid_init_replay _ tag) |].
    rewrite !Forall_app.
    repeat split; [auto with calls | | auto with calls | auto with calls].
    apply (property_calls_on_node (Instance cls _)).
Qed.

(** C2: every class of the module resolves a tag and a constructor; for
    arguments that fit its signature the constructor returns an instance
    of the class, having called [document.createElement] exactly once,
    with the class's tag; the instance wraps the node created by that
    call, which did not exist before; and whatever calls are made on the
    store afterwards, that node is still there with the same tag. *)
Theorem C2_one_node_per_instance (name : string) (cls : pyclass) :
  elements !! name = Some cls ->
  exists tag f,
    class_tag cls = Some tag /\ init_of cls = Some f
    /\ forall args d, args_fit f args = true ->
       exists self d' rest,
         construct cls args d = Some (self, d')
         /\ inst_class self = cls
         /\ dom_nodes d !! inst_js self = None
         /\ dom_trace d' = dom_trace d ++ EvCreate tag (inst_js self) :: rest
         /\ Forall (fun e => is_create e = false) rest
         /\ forall later, exists nd,
              dom_nodes (replay later d') !! inst_js self = Some nd
              /\ node_tag nd = tag.
Proof.
  intros Hcls. apply elements_tag_init in Hcls as (tag & f & Htag & Hinit).
  exists tag, f. split; [exact Htag |]. split; [exact Hinit |].
  intros args d Hfit.
  destruct (construct_calls cls tag f args d Htag Hinit Hfit)
    as (rest & Hrun & Hrest).
  eexists _, _, rest. split; [exact Hrun |].
  split; [reflexivity |].
  split; [by apply lookup_ge_None_2 |].
  split; [reflexivity |].
  split; [by eapply on_node_not_create |].
  intros later.
  change (EvCreate tag (length (dom_nodes d)) :: rest)
    with ([EvCreate tag (length (dom_nodes d))] ++ rest).
  rewrite replay_app, <- replay_app.
  destruct (replay_keeps (rest ++ later)
              (replay [EvCreate tag (length (dom_nodes d))] d)
              (length (dom_nodes d)) (new_node tag) (replay_create tag d))
    as (nd & Hnd & Htagnd).
  exists nd. split; [exact Hnd | exact Htagnd].
Qed.

Lemma C2_one_node_per_instance_witness :
  exists self d',
    construct (the_class "img")
              (ArgsElementBase None {[ "src" := VStr "logo.png" ]}) empty_dom
    = Some (self, d')
    /\ dom_trace d' = [EvCreate "img" 0; EvProp 0 "src" (VStr "logo.png")].
Proof.
  assert (Himg : elements !! "img" = Some (the_class "img"))
    by (vm_compute; reflexivity).
  destruct (C2_one_node_per_instance "img" (the_class "img") Himg)
    as (tag & f & Htag & Hinit & Hctor).
  clear Himg.
  assert (f = ElementBase_init) as ->
    by (vm_compute in Hinit; congruence).
  destruct (Hctor (ArgsElementBase None {[ "src" := VStr "logo.png" ]})
                  empty_dom eq_refl)
    as (self & d' & rest & Hrun & _).
  exists self, d'. split; [exact Hrun |].
  clear Hctor Htag Hinit.
  vm_compute in Hrun. injection Hrun as _ <-. reflexivity.
Defined.

(** ** C4: attribute access is forwarded to the node *)

(** For a name that the class of an instance resolves to a
    [JSProperty], getting the attribute reads the property of that name
    on the wrapped node, and setting it writes that property on the
    wrapped node and on nothing else. *)
Lemma resolved_property_forwarded (self : instance) (name js : string)
    (value : pyval) (d : dom) (nd : node) :
  type_lookup (inst_class self) name = Some (AJSProperty js) ->
  dom_nodes d !! inst_js self = Some nd ->
  getattr self name d = node_props nd !! js
  /\ exists d',
       setattr self name value d = Some (tt, d')
       /\ dom_nodes d' !! inst_js self
          = Some (Node (node_tag nd) (<[js := value]> (node_props nd))
                       (node_style nd) (node_html nd) (node_children nd))
       /\ (forall m, m <> inst_js self -> dom_nodes d' !! m = dom_nodes d !! m)
       /\ dom_trace d' = dom_trace d ++ [EvProp (inst_js self) js value]
       /\ getattr self name d' = Some value.
Proof.
  intros Hlook Hnd. unfold getattr, setattr. rewrite Hlook.
  unfold JSProperty.__get__, JSProperty.__set__. split.
  - by rewrite Hnd.
  - eexists. split; [apply emit_replay |].
    unfold replay; cbn [dom_nodes dom_trace foldl apply_event event_node].
    split; [by rewrite list_lookup_alter_eq, Hnd |].
    split; [intros m Hm; by rewrite list_lookup_alter_ne |].
    split; [done |].
    rewrite list_lookup_alter_eq, Hnd. simpl. apply lookup_insert_eq.
Qed.

(** Where the harvesting routine has been called, access is forwarded:
    on an instance of a class that went through
    [_add_js_properties(cls, *attrs)], every global attribute and every
    extra name reads and writes the node property of the same name. *)
Lemma harvested_names_forwarded (n : string) (b : pyclass)
    (dict : list (string * attr)) (attrs : list string) (js : node_id)
    (name : string) (value : pyval) (d : dom) (nd : node) :
  name ∈ GLOBAL_ATTRIBUTES ++ attrs ->
  dom_nodes d !! js = Some nd ->
  getattr (Instance (_add_js_properties (PyClass n b dict) attrs) js) name d
  = node_props nd !! name
  /\ exists d',
       setattr (Instance (_add_js_properties (PyClass n b dict) attrs) js)
               name value d = Some (tt, d')
       /\ dom_trace d' = dom_trace d ++ [EvProp js name value]
       /\ getattr (Instance (_add_js_properties (PyClass n b dict) attrs) js)
                  name d' = Some value.
Proof.
  intros Hin Hnd.
  assert (Hlook : type_lookup (_add_js_properties (PyClass n b dict) attrs)
                              name = Some (AJSProperty name)).
  { rewrite add_js_properties_dict. cbn [type_lookup].
    rewrite (dict_get_foldl_set js_property). by rewrite decide_True. }
  destruct (resolved_property_forwarded
              (Instance (_add_js_properties (PyClass n b dict) attrs) js)
              name name value d nd Hlook Hnd)
    as (Hget & d' & Hset & _ & _ & Htrace & Hget').
  split; [exact Hget|]. exists d'.
  split; [exact Hset|]. split; [exact Htrace | exact Hget'].
Qed.

(** C4 on the code: ["lang"] is a global attribute, yet the class [span],
    on which [_add_js_properties] is never called, resolves it to no
    typed property: [span(lang="en")] creates the node and assigns
    nothing, reading [lang] does not reach the node and setting it
    leaves the store as it is.  The sibling [strong], which is harvested,
    forwards both.  Of the 97 classes of the module, 24 forward no
    global attribute at all. *)
Theorem C4_span_lang_not_forwarded :
  GLOBAL_ATTRIBUTES !! 7 = Some "lang"
  /\ type_lookup (the_class "span") "lang" = None
  /\ getattr (Instance (the_class "span") 0) "lang"
             (Dom [Node "span" {[ "lang" := VStr "en" ]} ∅ None []] [])
     = None
  /\ setattr (Instance (the_class "span") 0) "lang" (VStr "fr")
             (Dom [Node "span" {[ "lang" := VStr "en" ]} ∅ None []] [])
     = Some (tt, Dom [Node "span" {[ "lang" := VStr "en" ]} ∅ None []] [])
  /\ (exists self d',
        construct (the_class "span")
                  (ArgsTextElementBase VNone None {[ "lang" := VStr "en" ]})
                  empty_dom
        = Some (self, d')
        /\ dom_trace d' = [EvCreate "span" 0]
        /\ getattr self "lang" d' = None)
  /\ (exists self d',
        construct (the_class "strong")
                  (ArgsTextElementBase VNone None {[ "lang" := VStr "en" ]})
                  empty_dom
        = Some (self, d')
        /\ dom_trace d' = [EvCreate "strong" 0; EvProp 0 "lang" (VStr "en")]
        /\ getattr self "lang" d' = Some (VStr "en"))
  /\ length (List.filter
               (fun p : string * pyclass =>
                  negb (existsb (recognizes p.2) GLOBAL_ATTRIBUTES))
               (map_to_list elements)) = 24
  /\ size elements = 97.
Proof.
  split; [reflexivity|].
  split; [by_evaluation|]. split; [by_evaluation|]. split; [by_evaluation|].
  split.
  { eexists _, _. split; [by_evaluation|]. split; by_evaluation. }
  split.
  { eexists _, _. split; [by_evaluation|]. split; by_evaluation. }
  split; by_evaluation.
Qed.

(** In the module every [JSProperty] is bound to the name of the class
    attribute that holds it, except [script.async_], bound to ["async"]. *)
Lemma elements_bound_to_own_name cname c :
  elements !! cname = Some c -> bound_to_own_name cname c = true.
Proof.
  intros Hc.
  assert (Hall : forallb (fun p => bound_to_own_name p.1 p.2)
                         (map_to_list elements) = true)
    by by_evaluation.
  exact (elements_all bound_to_own_name Hall cname c Hc).
Qed.

(** ** C8: keyword arguments that match no property *)






(** ** C9 and C10: the node after construction *)

Lemma constructed_node tag rest d :
  Forall (on_node (length (dom_nodes d))) rest ->
  dom_nodes (replay (EvCreate tag (length (dom_nodes d)) :: rest) d)
    !! length (dom_nodes d)
  = Some (foldl (fun nd e => apply_node e nd) (new_node tag) rest).
Proof.
  intros Hrest.
  change (EvCreate tag (length (dom_nodes d)) :: rest)
    with ([EvCreate tag (length (dom_nodes d))] ++ rest).
  rewrite replay_app.
  apply replay_on_node; [exact Hrest | apply replay_create].
Qed.

Lemma ElementBase_calls_on_node cls tag n style kwargs :
  exists rest,
    ElementBase_calls cls tag n style kwargs = EvCreate tag n :: rest
    /\ Forall (on_node n) rest.
Proof.
  eexists. split; [reflexivity |].
  apply Forall_app. split;
    [apply style_calls_on_node
    | apply (property_calls_on_node (Instance cls n))].
Qed.

Lemma foldl_append n items nd :
  node_children (append_all n items nd) = node_children nd ++ items
  /\ node_html (append_all n items nd) = node_html nd
  /\ node_props (append_all n items nd) = node_props nd
  /\ node_style (append_all n items nd) = node_style nd.
Proof.
  revert nd. induction items as [|c items IH]; intros nd.
  - unfold append_all; simpl. by rewrite app_nil_r.
  - change (append_all n (c :: items) nd)
      with (append_all n items (apply_node (EvAppend n c) nd)).
    destruct (IH (apply_node (EvAppend n c) nd)) as (Hc & Hh & Hp & Hs).
    rewrite Hc, Hh, Hp, Hs. simpl. by rewrite <- app_assoc.
Qed.

(** C9: the constructor of [TextElementBase] builds the element as
    [ElementBase] does and then treats the content by its shape: an
    element is appended as a child; the items of a list are appended in
    list order; [None] leaves the store as it is; any other value becomes
    the html of the element.  Properties and style are not touched. *)
Theorem C9_content_dispatch (cls : pyclass) (tag : string) (content : pyval)
    (style : option pydict) (kwargs : gmap string pyval) (d : dom) :
  class_tag cls = Some tag ->
  exists self d0 d1 nd0 nd1,
    ElementBase.__init__ cls style kwargs d = Some (self, d0)
    /\ TextElementBase.__init__ cls content style kwargs d = Some (self, d1)
    /\ dom_nodes d0 !! inst_js self = Some nd0
    /\ dom_nodes d1 !! inst_js self = Some nd1
    /\ dom_trace d1 = dom_trace d0 ++ content_calls (inst_js self) content
    /\ node_props nd1 = node_props nd0
    /\ node_style nd1 = node_style nd0
    /\ match content with
       | VElement _ =>
           node_children nd1 = node_children nd0 ++ [content]
           /\ node_html nd1 = node_html nd0
       | VList items =>
           node_children nd1 = node_children nd0 ++ items
           /\ node_html nd1 = node_html nd0
       | VNone => d1 = d0
       | _ =>
           node_html nd1 = Some content
           /\ node_children nd1 = node_children nd0
       end.
Proof.
  intros Htag.
  destruct (ElementBase_calls_on_node cls tag (length (dom_nodes d))
              style kwargs) as (rest & Hcalls & Hrest).
  pose proof (content_calls_on_node (length (dom_nodes d)) content) as Hcont.
  eexists _, _, _, _, _.
  split; [by apply (ElementBase_init_replay _ tag) |].
  split; [by apply (TextElementBase_init_replay _ tag) |].
  unfold TextElementBase_calls. rewrite Hcalls. cbn [inst_js].
  split; [by apply constructed_node |].
  split.
  { rewrite replay_app. apply replay_on_node; [exact Hcont |].
    by apply constructed_node. }
  split; [by rewrite replay_app, !replay_trace |].
  set (nd0 := foldl (fun nd e => apply_node e nd) (new_node tag) rest).
  destruct content as [| | | |items|e]; simpl content_calls; simpl foldl;
    try done.
  - split; [done|]. split; [done|]. by rewrite app_nil_r.
  - destruct (foldl_append (length (dom_nodes d)) items nd0)
      as (Hc & Hh & Hp & Hs). unfold append_all in *.
    by rewrite Hc, Hh, Hp, Hs.
Qed.

Lemma C9_content_dispatch_witness :
  exists self d1,
    TextElementBase.__init__
      (PyClass "ul" PydomElement [("tag", AStr "ul")])
      (VList [VStr "one"; VStr "two"]) None ∅ empty_dom = Some (self, d1)
    /\ dom_trace d1 = [EvCreate "ul" 0; EvAppend 0 (VStr "one");
                       EvAppend 0 (VStr "two")].
Proof.
  destruct (C9_content_dispatch
              (PyClass "ul" PydomElement [("tag", AStr "ul")]) "ul"
              (VList [VStr "one"; VStr "two"]) None ∅ empty_dom eq_refl)
    as (self & d0 & d1 & nd0 & nd1 & Hbase & Hrun & _ & _ & Htrace & _).
  exists self, d1. split; [exact Hrun |].
  rewrite Htrace.
  injection Hbase as <- <-. reflexivity.
Defined.

Lemma grid_init_style cls tag layout content gap style kwargs d :
  class_tag cls = Some tag ->
  exists self d0 d' nd0 nd,
    TextElementBase.__init__ cls content style kwargs d = Some (self, d0)
    /\ grid.__init__ cls layout content gap style kwargs d = Some (self, d')
    /\ dom_nodes d0 !! inst_js self = Some nd0
    /\ dom_nodes d' !! inst_js self = Some nd
    /\ node_style nd !! "display" = Some (VStr "grid")
    /\ node_style nd !! "grid-template-columns" = Some layout
    /\ node_style nd !! "gap"
       = match gap with VNone => node_style nd0 !! "gap" | _ => Some gap end
    /\ exists body,
         dom_trace d' = dom_trace d0 ++ body
         /\ ((exists value, EvStyle (inst_js self) "gap" value ∈ body)
             <-> gap <> VNone)
         /\ (forall value, EvStyle (inst_js self) "gap" value ∈ body ->
             value = gap).
Proof.
  intros Htag.
  destruct (ElementBase_calls_on_node cls tag (length (dom_nodes d))
              style kwargs) as (rest & Hcalls & Hrest).
  pose proof (content_calls_on_node (length (dom_nodes d)) content) as Hcont.
  pose proof (grid_calls_on_node (length (dom_nodes d)) layout gap) as Hgrid.
  eexists _, _, _, _, _.
  split; [by apply (TextElementBase_init_replay _ tag) |].
  split; [by apply (grid_init_replay _ tag) |].
  unfold TextElementBase_calls. rewrite Hcalls. cbn [inst_js].
  rewrite <- !app_comm_cons.
  split; [apply constructed_node; by apply Forall_app |].
  split.
  { rewrite constructed_node
      by (apply Forall_app; split; [apply Forall_app; split|]; assumption).
    by rewrite foldl_app. }
  set (nd0 := foldl (fun nd e => apply_node e nd) (new_node tag)
                    (rest ++ content_calls (length (dom_nodes d)) content)).
  assert (Hne1 : "grid-template-columns" <> "display") by discriminate.
  assert (Hne2 : "gap" <> "display") by discriminate.
  assert (Hne3 : "gap" <> "grid-template-columns") by discriminate.
  assert (Hne4 : "display" <> "gap") by discriminate.
  assert (Hne5 : "grid-template-columns" <> "gap") by discriminate.
  split; [|split; [|split]].
  - destruct gap; cbn [grid_calls app foldl apply_node node_style];
      by rewrite ?(lookup_insert_ne _ "gap") by done;
         rewrite lookup_insert_ne, lookup_insert_eq by done.
  - destruct gap; cbn [grid_calls app foldl apply_node node_style];
      by rewrite ?(lookup_insert_ne _ "gap") by done;
         rewrite lookup_insert_eq.
  - destruct gap; cbn [grid_calls app foldl apply_node node_style];
      by rewrite ?lookup_insert_eq, ?lookup_insert_ne by done.
  - exists (grid_calls (length (dom_nodes d)) layout gap).
    split; [by rewrite !replay_trace, <- (app_assoc (dom_trace d)) |].
    unfold grid_calls. split; [split|].
    + intros [value Hin] ->. simpl in Hin.
      repeat (apply elem_of_cons in Hin as [Hin|Hin]; [discriminate Hin|]).
      by apply elem_of_nil in Hin.
    + intros Hgap. exists gap.
      destruct gap; [done| | | | |];
        simpl; do 2 (apply elem_of_cons; right); apply elem_of_cons; by left.
    + intros value Hin.
      destruct gap; simpl in Hin;
        repeat (apply elem_of_cons in Hin as [Hin|Hin];
                [by (discriminate Hin || injection Hin as ->)|]);
        by apply elem_of_nil in Hin.
Qed.

(** C10: constructing a grid returns; afterwards the style of the wrapped
    node has ["display"] equal to ["grid"], whatever the style argument
    held, and ["grid-template-columns"] equal to the layout; the body of
    the constructor sets ["gap"] exactly when the gap argument is not
    [None], and then to that argument, otherwise ["gap"] is what the
    style argument left. *)
Theorem C10_grid_forces_layout (layout content gap : pyval)
    (style : option pydict) (kwargs : gmap string pyval) (d : dom) :
  exists self d0 d' nd0 nd,
    TextElementBase.__init__ (the_class "grid") content style kwargs d
    = Some (self, d0)
    /\ construct (the_class "grid")
                 (ArgsGrid layout content gap style kwargs) d
       = Some (self, d')
    /\ dom_nodes d0 !! inst_js self = Some nd0
    /\ dom_nodes d' !! inst_js self = Some nd
    /\ node_style nd !! "display" = Some (VStr "grid")
    /\ node_style nd !! "grid-template-columns" = Some layout
    /\ node_style nd !! "gap"
       = match gap with VNone => node_style nd0 !! "gap" | _ => Some gap end
    /\ exists body,
         dom_trace d' = dom_trace d0 ++ body
         /\ ((exists value, EvStyle (inst_js self) "gap" value ∈ body)
             <-> gap <> VNone)
         /\ (forall value, EvStyle (inst_js self) "gap" value ∈ body ->
             value = gap).
Proof.
  assert (Htag : class_tag (the_class "grid") = Some "div")
    by by_evaluation.
  assert (Hinit : init_of (the_class "grid") = Some grid_init)
    by by_evaluation.
  unfold construct. rewrite Hinit. clear Hinit.
  generalize dependent (the_class "grid"). intros cls Htag.
  exact (grid_init_style cls "div" layout content gap style kwargs d Htag).
Qed.

(** ** C5: classes and tags *)

(** C5, as stated, fails: [div] and [grid] are two classes with the tag
    ["div"], and the tags of the class statements repeat. *)
Lemma C5_div_grid_counterexample :
  ~ tags_one_to_one elements /\ ~ NoDup (statement_tags module_body).
Proof.
  split.
  - intros Hone.
    assert (Hdiv : elements !! "div" = Some (the_class "div"))
      by by_evaluation.
    assert (Hgrid : elements !! "grid" = Some (the_class "grid"))
      by by_evaluation.
    assert (Htag : class_tag (the_class "div") = class_tag (the_class "grid"))
      by by_evaluation.
    specialize (Hone "div" "grid" _ _ Hdiv Hgrid Htag).
    clear Hdiv Hgrid Htag. discriminate Hone.
  - assert (Hdup : bool_decide (NoDup (statement_tags module_body)) = false)
      by by_evaluation.
    by apply bool_decide_eq_false_1 in Hdup.
Qed.

Lemma elements_tags_checked :
  forallb (fun p1 => forallb (tags_checked p1) (map_to_list elements))
          (map_to_list elements) = true.
Proof. by_evaluation. Qed.

(** C5 (amended): every class of the module has exactly one tag; the
    HTML element classes, that is all classes other than the custom
    element [grid] and the bases [ElementBase] and [TextElementBase],
    have pairwise different tags; those three carry the tag ["div"]. *)
Theorem C5_tags_of_classes (n1 n2 : string) (c1 c2 : pyclass) :
  elements !! n1 = Some c1 ->
  elements !! n2 = Some c2 ->
  exists t1 t2,
    class_tag c1 = Some t1 /\ class_tag c2 = Some t2
    /\ (n1 ∉ div_sharers -> n2 ∉ div_sharers -> t1 = t2 -> n1 = n2)
    /\ (n1 ∈ div_sharers -> t1 = "div").
Proof.
  intros H1 H2.
  apply elem_of_map_to_list, list_elem_of_In in H1, H2.
  pose proof elements_tags_checked as Hall.
  rewrite forallb_forall in Hall. specialize (Hall _ H1).
  rewrite forallb_forall in Hall. specialize (Hall _ H2).
  clear H1 H2. unfold tags_checked in Hall. simpl in Hall.
  destruct (class_tag c1) as [t1|], (class_tag c2) as [t2|];
    try discriminate Hall.
  exists t1, t2. split; [reflexivity |]. split; [reflexivity |].
  apply andb_prop in Hall as [Hinj Hdiv]. split.
  - intros Hn1 Hn2 Heq.
    rewrite (bool_decide_eq_false_2 _ Hn1),
            (bool_decide_eq_false_2 _ Hn2),
            (bool_decide_eq_true_2 _ Heq) in Hinj.
    simpl in Hinj. by apply bool_decide_eq_true_1 in Hinj.
  - intros Hn1. rewrite (bool_decide_eq_true_2 _ Hn1) in Hdiv.
    simpl in Hdiv. by apply bool_decide_eq_true_1 in Hdiv.
Qed.

Lemma C5_tags_of_classes_witness :
  class_tag (the_class "nav") = Some "nav"
  /\ class_tag (the_class "map_") = Some "map".
Proof.
  assert (Hnav : elements !! "nav" = Some (the_class "nav"))
    by (vm_compute; reflexivity).
  assert (Hmap : elements !! "map_" = Some (the_class "map_"))
    by (vm_compute; reflexivity).
  destruct (C5_tags_of_classes "nav" "map_" _ _ Hnav Hmap)
    as (t1 & t2 & Ht1 & Ht2 & _).
  clear Hnav Hmap. rewrite Ht1, Ht2.
  vm_compute in Ht1. vm_compute in Ht2.
  injection Ht1 as <-. injection Ht2 as <-. split; reflexivity.
Defined.

(** ** C6 and C7: classes the harvesting routine was never called on *)

(** C6 on the code: no class of a tag listed in [CUSTOM_ATTRIBUTES]
    recognizes any of the names listed for it; [a(href=...)] creates the
    node and assigns nothing, and [href] cannot be read back. *)
Theorem C6_custom_attributes_unused :
  forallb (fun '(tag, attrs) =>
             bool_decide (class_tag (the_class tag) = Some tag)
             && forallb (fun name => negb (recognizes (the_class tag) name))
                        attrs)
          CUSTOM_ATTRIBUTES = true
  /\ exists self d',
       construct (the_class "a")
                 (ArgsTextElementBase VNone None
                    {[ "href" := VStr "https://pyscript.net" ]}) empty_dom
       = Some (self, d')
       /\ dom_trace d' = [EvCreate "a" 0]
       /\ getattr self "href" d' = None.
Proof.
  split; [by_evaluation |].
  eexists _, _. split; [by_evaluation |].
  split; by_evaluation.
Qed.

(** C7 on the code: [span] exposes none of the global attributes, so
    [span(id="x")] creates the node and assigns nothing; the classes that
    expose the global attributes are exactly those outside [unharvested]
    (and the two bases), and they expose all of them. *)
Theorem C7_span_lacks_global_attributes :
  forallb (fun name => negb (recognizes (the_class "span") name))
          GLOBAL_ATTRIBUTES = true
  /\ (exists self d',
        construct (the_class "span")
                  (ArgsTextElementBase VNone None {[ "id" := VStr "x" ]})
                  empty_dom
        = Some (self, d')
        /\ dom_trace d' = [EvCreate "span" 0]
        /\ getattr self "id" d' = None)
  /\ forallb (fun p : string * pyclass =>
        if bool_decide (p.1 ∈ unharvested ++ ["ElementBase"; "TextElementBase"])
        then forallb (fun name => negb (recognizes p.2 name)) GLOBAL_ATTRIBUTES
        else forallb (recognizes p.2) GLOBAL_ATTRIBUTES)
       (map_to_list elements) = true.
Proof.
  split; [by_evaluation |]. split.
  - eexists _, _. split; [by_evaluation |].
    split; by_evaluation.
  - by_evaluation.
Qed.

(** * Further properties of the code *)

(** ** The harvesting routine on the class dictionary *)

Lemma keys_dict_set_old {A} (d : list (string * A)) k v :
  k ∈ keys d -> keys (dict_set d k v) = keys d.
Proof.
  unfold keys. induction d as [|[k' v'] d IH]; intros H.
  - by apply elem_of_nil in H.
  - cbn [dict_set]. rewrite fmap_cons in H. cbn [fst] in H.
    destruct (decide (k' = k)) as [->|Hne]; rewrite !fmap_cons; [done|].
    cbn [fst]. f_equal. apply IH.
    apply elem_of_cons in H as [->|H]; done.
Qed.

Lemma keys_dict_set_new {A} (d : list (string * A)) k v :
  k ∉ keys d -> keys (dict_set d k v) = keys d ++ [k].
Proof.
  unfold keys. induction d as [|[k' v'] d IH]; intros H; [done|].
  cbn [dict_set]. rewrite fmap_cons in H. cbn [fst] in H.
  apply not_elem_of_cons in H as [Hne Hnin].
  rewrite decide_False by done. rewrite !fmap_cons. cbn [fst].
  by rewrite IH.
Qed.

Lemma dict_set_same {A} (d : list (string * A)) k v :
  dict_get d k = Some v -> dict_set d k v = d.
Proof.
  induction d as [|[k' v'] d IH]; simpl; [done|].
  destruct (decide (k' = k)) as [->|Hne].
  - by intros [= ->].
  - intros H. by rewrite IH.
Qed.

#[local] Set Warnings "-clear-no-such-hyp".
Lemma keys_foldl_set {A} (f : string -> A) ks (d : list (string * A)) :
  exists new,
    keys (foldl (fun d a => dict_set d a (f a)) d ks) = keys d ++ new
    /\ NoDup new
    /\ forall k, k ∈ new <-> k ∈ ks /\ k ∉ keys d.
Proof.
  revert d. induction ks as [|a ks IH]; intros d.
  - exists []. rewrite app_nil_r. split; [done|]. split; [constructor|].
    intros k. split; [intros H; by apply elem_of_nil in H|].
    intros [H _]. by apply elem_of_nil in H.
  - cbn [foldl]. destruct (IH (dict_set d a (f a))) as (new & Hk & Hnd & Hin).
    destruct (decide (a ∈ keys d)) as [Ha|Ha].
    + rewrite (keys_dict_set_old d a (f a) Ha) in Hk, Hin.
      exists new. split; [done|]. split; [done|].
      intros k. rewrite Hin, elem_of_cons. naive_solver.
    + rewrite (keys_dict_set_new d a (f a) Ha) in Hk, Hin.
      exists (a :: new). split; [by rewrite Hk, <- app_assoc|].
      split.
      * apply NoDup_cons. split; [|done].
        rewrite Hin, elem_of_app, list_elem_of_singleton. naive_solver.
      * intros k. rewrite !elem_of_cons, Hin, elem_of_app,
          list_elem_of_singleton.
        destruct (decide (k = a)) as [->|Hne]; naive_solver.
Qed.

(** X1: [_add_js_properties] keeps every attribute the class already had
    at its place in the class dictionary and appends the harvested names
    that were not there yet, each once; a dictionary with distinct names
    keeps distinct names. *)
Theorem X1_harvest_keeps_order (n : string) (b : pyclass)
    (d : list (string * attr)) (attrs : list string) :
  NoDup (keys d) ->
  exists d' new,
    _add_js_properties (PyClass n b d) attrs = PyClass n b d'
    /\ keys d' = keys d ++ new
    /\ NoDup (keys d')
    /\ forall k, k ∈ new <-> k ∈ GLOBAL_ATTRIBUTES ++ attrs /\ k ∉ keys d.
Proof.
  intros Hd. rewrite add_js_properties_dict.
  destruct (keys_foldl_set js_property (GLOBAL_ATTRIBUTES ++ attrs) d)
    as (new & Hk & Hnd & Hin).
  eexists _, new. split; [reflexivity|]. split; [exact Hk|].
  split; [|exact Hin].
  rewrite Hk. apply NoDup_app. split; [done|]. split; [|done].
  intros k Hkd Hknew. apply Hin in Hknew as [_ Hnk]. done.
Qed.

Lemma X1_harvest_keeps_order_witness :
  exists d',
    _add_js_properties
      (PyClass "script" PydomElement
               [("tag", AStr "script"); ("async_", js_property "async")])
      ["nonce"; "src"]
    = PyClass "script" PydomElement d'
    /\ keys d' = ["tag"; "async_"] ++ GLOBAL_ATTRIBUTES ++ ["src"].
Proof.
  assert (Hd : NoDup (keys [("tag", AStr "script");
                            ("async_", js_property "async")])).
  { apply (bool_decide_unpack _). vm_compute. exact I. }
  destruct (X1_harvest_keeps_order "script" PydomElement
              [("tag", AStr "script"); ("async_", js_property "async")]
              ["nonce"; "src"] Hd) as (d' & new & Heq & _).
  exists d'. split; [exact Heq|].
  injection Heq as <-. vm_compute. reflexivity.
Defined.

Lemma foldl_set_same {A} (f : string -> A) ks (d : list (string * A)) :
  (forall a, a ∈ ks -> dict_get d a = Some (f a)) ->
  foldl (fun d a => dict_set d a (f a)) d ks = d.
Proof.
  induction ks as [|a ks IH]; intros Hall; [done|].
  cbn [foldl]. rewrite dict_set_same by (apply Hall; by left).
  apply IH. intros a' Ha'. apply Hall. by right.
Qed.

Lemma add_js_properties_root attrs :
  _add_js_properties PydomElement attrs = PydomElement.
Proof.
  unfold _add_js_properties.
  assert (H : forall f ks,
            foldl (fun c a => setattr_class c a (f a)) PydomElement ks
            = PydomElement)
    by (intros f ks; induction ks as [|a ks IH]; [done | exact IH]).
  by rewrite !H.
Qed.

(** X2: harvesting is idempotent: a second call of [_add_js_properties]
    with the same extra names leaves the class as the first call made it. *)
Theorem X2_harvest_idempotent (cls : pyclass) (attrs : list string) :
  _add_js_properties (_add_js_properties cls attrs) attrs
  = _add_js_properties cls attrs.
Proof.
  destruct cls as [|n b d]; [by rewrite !add_js_properties_root|].
  rewrite !add_js_properties_dict. f_equal.
  apply foldl_set_same. intros a Ha.
  rewrite (dict_get_foldl_set js_property). by rewrite decide_True.
Qed.

(** On the class itself, naming a global attribute among the extra
    names changes nothing. *)
Lemma add_js_properties_without_globals (cls : pyclass) (attrs : list string) :
  _add_js_properties cls attrs
  = _add_js_properties cls
      (filter (fun a => a ∉ GLOBAL_ATTRIBUTES) attrs).
Proof.
  destruct cls as [|n b d]; [by rewrite !add_js_properties_root|].
  rewrite !add_js_properties_dict, !foldl_app. f_equal.
  set (d1 := foldl (fun d a => dict_set d a (js_property a)) d
                   GLOBAL_ATTRIBUTES).
  assert (Hd1 : forall g, g ∈ GLOBAL_ATTRIBUTES ->
                          dict_get d1 g = Some (js_property g)).
  { intros g Hg. unfold d1. rewrite (dict_get_foldl_set js_property).
    by rewrite decide_True. }
  clearbody d1. revert d1 Hd1.
  induction attrs as [|a attrs IH]; intros d1 Hd1; [done|].
  cbn [foldl]. destruct (decide (a ∈ GLOBAL_ATTRIBUTES)) as [Ha|Ha].
  - rewrite filter_cons_False by (intros H; by apply H).
    rewrite dict_set_same by by apply Hd1. by apply IH.
  - rewrite filter_cons_True by done. cbn [foldl]. apply IH.
    intros g Hg. rewrite dict_get_set_ne; [by apply Hd1|].
    intros ->. done.
Qed.

(** A harvesting statement of the module is one call of the routine on
    the class bound to the name. *)
Lemma exec_stmt_harvest (ms : module_state) (name : string)
    (attrs : list string) :
  exec_stmt ms (SAddJs name attrs)
  = (c ← ms_names ms !! name;
     r ← _add_js_properties_call c attrs (ms_init_doc ms);
     Some (Module_state (<[name := r.1]> (ms_names ms)) r.2)).
Proof.
  unfold exec_stmt, _add_js_properties_call.
  destruct (ms_names ms !! name) as [c|]; [|done]. cbn [mbind option_bind].
  destruct (init_of (_add_js_properties c attrs)) as [f|]; [|done].
  cbn [mbind option_bind].
  by destruct (class_tag (_add_js_properties c attrs)).
Qed.

(** X3: naming a global attribute among the extra names gives the same
    class as the call without those names, and the call fails or returns
    alike; the one difference is the docstring written to the
    constructor, which lists the extra names as they were passed. *)
Theorem X3_global_extras_same_class (cls : pyclass) (attrs : list string)
    (docs : init_fn -> option docstring) :
  match _add_js_properties_call cls attrs docs,
        _add_js_properties_call cls
          (filter (fun a => a ∉ GLOBAL_ATTRIBUTES) attrs) docs with
  | Some (c1, docs1), Some (c2, docs2) =>
      c1 = c2
      /\ exists f t,
           docs1 f = Some (Doc t attrs)
           /\ docs2 f
              = Some (Doc t (filter (fun a => a ∉ GLOBAL_ATTRIBUTES) attrs))
           /\ forall g, g <> f -> docs1 g = docs g /\ docs2 g = docs g
  | None, None => True
  | _, _ => False
  end.
Proof.
  unfold _add_js_properties_call.
  rewrite <- (add_js_properties_without_globals cls attrs).
  destruct (init_of (_add_js_properties cls attrs)) as [f|]; [|done].
  cbn [mbind option_bind].
  destruct (class_tag (_add_js_properties cls attrs)) as [t|]; [|done].
  cbn [mbind option_bind]. split; [done|]. exists f, t.
  unfold patch_init_doc. split; [by rewrite decide_True|].
  split; [by rewrite decide_True|].
  intros g Hg. by destruct (decide (g = f)).
Qed.

(** ** What [_init_properties] assigns *)

Lemma dict_get_NoDup {A} (d : list (string * A)) k v :
  NoDup (keys d) -> (k, v) ∈ d -> dict_get d k = Some v.
Proof.
  unfold keys. induction d as [|[k' v'] d IH]; intros Hnd Hin.
  - by apply elem_of_nil in Hin.
  - rewrite fmap_cons in Hnd. cbn [fst] in Hnd.
    apply NoDup_cons in Hnd as [Hk' Hnd]. cbn [dict_get].
    apply elem_of_cons in Hin as [[= -> ->]|Hin].
    + by rewrite decide_True.
    + rewrite decide_False; [by apply IH|].
      intros ->. apply Hk'.
      apply list_elem_of_fmap. by exists (k, v).
Qed.

Lemma property_calls_supplied cls js kwargs :
  NoDup (keys (cls_dict cls)) ->
  property_calls (Instance cls js) kwargs
  = supplied_assignments js kwargs (cls_dict cls).
Proof.
  intros Hnd. unfold property_calls, supplied_assignments. cbn [inst_class].
  assert (Hown : forall k a, (k, a) ∈ cls_dict cls ->
                             type_lookup cls k = Some a).
  { intros k a Hin. destruct cls as [|n b d]; [by apply elem_of_nil in Hin|].
    cbn [type_lookup]. cbn [cls_dict] in *.
    by rewrite (dict_get_NoDup d k a Hnd Hin). }
  clear Hnd. induction (cls_dict cls) as [|[k a] l IH]; [done|].
  cbn [flat_map omap list_omap]. rewrite IH by
    (intros k' a' Hin'; apply Hown; by right).
  destruct a as [s|f|m|p]; cbn [is_JSProperty]; try done.
  destruct (kwargs !! k) as [v|]; [|done].
  unfold setattr_calls. cbn [inst_class inst_js].
  rewrite (Hown k (AJSProperty p)) by by left. done.
Qed.

(** X4: on a class whose dictionary has distinct names, [_init_properties]
    makes exactly one assignment for each own [JSProperty] whose name is
    a key of [kwargs], with the value given under that name, in the order
    of the class dictionary, and makes no other call. *)
Theorem X4_one_assignment_per_supplied_property (cls : pyclass)
    (js : node_id) (kwargs : gmap string pyval) (d : dom) :
  NoDup (keys (cls_dict cls)) ->
  ElementBase._init_properties (Instance cls js) kwargs d
  = Some (tt, replay (supplied_assignments js kwargs (cls_dict cls)) d).
Proof.
  intros Hnd. rewrite init_properties_replay.
  by rewrite property_calls_supplied.
Qed.

Lemma X4_one_assignment_per_supplied_property_witness :
  ElementBase._init_properties
    (Instance (PyClass "img" PydomElement
                 [("tag", AStr "img"); ("alt", js_property "alt");
                  ("src", js_property "src")]) 0)
    {[ "src" := VStr "a.png"; "width" := VInt 3 ]}
    (Dom [new_node "img"] [])
  = Some (tt, replay [EvProp 0 "src" (VStr "a.png")]
                     (Dom [new_node "img"] [])).
Proof.
  assert (Hnd : NoDup (keys (cls_dict
                 (PyClass "img" PydomElement
                    [("tag", AStr "img"); ("alt", js_property "alt");
                     ("src", js_property "src")])))).
  { apply (bool_decide_unpack _). vm_compute. exact I. }
  rewrite (X4_one_assignment_per_supplied_property _ 0
             {[ "src" := VStr "a.png"; "width" := VInt 3 ]}
             (Dom [new_node "img"] []) Hnd).
  vm_compute. reflexivity.
Defined.

Lemma property_calls_none self kwargs :
  (forall name, own_JSProperty (inst_class self) name = true ->
                kwargs !! name = None) ->
  property_calls self kwargs = [].
Proof.
  intros Hnone.
  unfold property_calls. unfold own_JSProperty in Hnone.
  induction (cls_dict (inst_class self)) as [|[k a] l IH]; [done|].
  cbn [flat_map]. rewrite IH.
  - destruct (is_JSProperty a) eqn:Ha; [|done].
    rewrite (Hnone k); [done|].
    cbn [existsb]. by rewrite Ha, bool_decide_eq_true_2.
  - intros name Hname. apply Hnone. cbn [existsb].
    by rewrite Hname, orb_true_r.
Qed.

(** X5: when no own [JSProperty] name of the class is a key of [kwargs]
    (in particular when [kwargs] is empty, or when the class defines no
    [JSProperty] itself, whatever it inherits), [_init_properties]
    returns without making a call and leaves the store as it is. *)
Theorem X5_nothing_supplied_nothing_assigned (self : instance)
    (kwargs : gmap string pyval) (d : dom) :
  (forall name, own_JSProperty (inst_class self) name = true ->
                kwargs !! name = None) ->
  ElementBase._init_properties self kwargs d = Some (tt, d).
Proof.
  intros Hnone. rewrite init_properties_replay.
  by rewrite property_calls_none, replay_nil.
Qed.

Lemma X5_nothing_supplied_nothing_assigned_witness :
  ElementBase._init_properties
    (Instance (PyClass "card" (PyClass "div" PydomElement
                 [("tag", AStr "div"); ("id", js_property "id")])
                 [("tag", AStr "div")]) 0)
    {[ "id" := VStr "x" ]} (Dom [new_node "div"] [])
  = Some (tt, Dom [new_node "div"] []).
Proof.
  apply X5_nothing_supplied_nothing_assigned.
  intros name Hname. unfold own_JSProperty in Hname. simpl in Hname.
  rewrite andb_false_r in Hname. discriminate Hname.
Defined.

(** ** The store after a construction *)

Lemma construct_closed cls tag f args d :
  class_tag cls = Some tag ->
  init_of cls = Some f ->
  args_fit f args = true ->
  construct cls args d
  = Some (Instance cls (length (dom_nodes d)),
          replay (construct_trace cls tag (length (dom_nodes d)) args) d).
Proof.
  intros Htag Hinit Hfit. unfold construct, construct_trace. rewrite Hinit.
  destruct f, args; try discriminate Hfit; clear Hfit;
    cbn [args_style args_kwargs tail_calls].
  - rewrite (ElementBase_init_replay _ tag) by done.
    unfold ElementBase_calls. by rewrite app_nil_r.
  - rewrite (TextElementBase_init_replay _ tag) by done.
    unfold TextElementBase_calls, ElementBase_calls.
    by rewrite <- app_comm_cons, <- !app_assoc.
  - rewrite (grid_init_replay _ tag) by done.
    unfold TextElementBase_calls, ElementBase_calls.
    by rewrite <- !app_comm_cons, <- !app_assoc.
Qed.

Lemma tail_calls_on_node n args : Forall (on_node n) (tail_calls n args).
Proof.
  destruct args; cbn [tail_calls]; rewrite ?Forall_app;
    repeat split; auto with calls.
Qed.

Lemma construct_rest_on_node cls n args :
  Forall (on_node n)
    (style_calls n (args_style args)
     ++ property_calls (Instance cls n) (args_kwargs args)
     ++ tail_calls n args).
Proof.
  rewrite !Forall_app. split; [auto with calls|]. split.
  - apply (property_calls_on_node (Instance cls n)).
  - apply tail_calls_on_node.
Qed.

Lemma replay_other es d n m :
  Forall (on_node n) es -> m <> n ->
  dom_nodes (replay es d) !! m = dom_nodes d !! m.
Proof.
  unfold replay; cbn [dom_nodes]. generalize (dom_nodes d) as ns.
  induction es as [|e es IH]; intros ns Hes Hm; cbn [foldl]; [done|].
  apply Forall_cons in Hes as [[Hnode Hcreate] Hes].
  rewrite IH by done.
  destruct e; try discriminate; cbn [event_node] in Hnode; subst;
    cbn [apply_event event_node]; by rewrite list_lookup_alter_ne.
Qed.

Lemma replay_length es d n :
  Forall (on_node n) es ->
  length (dom_nodes (replay es d)) = length (dom_nodes d).
Proof.
  unfold replay; cbn [dom_nodes]. generalize (dom_nodes d) as ns.
  induction es as [|e es IH]; intros ns Hes; cbn [foldl]; [done|].
  apply Forall_cons in Hes as [[Hnode Hcreate] Hes].
  rewrite IH by done.
  destruct e; try discriminate; cbn [apply_event]; apply length_alter.
Qed.

Lemma construct_frame (cls : pyclass) (tag : string) (f : init_fn)
    (args : call_args) (d : dom) :
  class_tag cls = Some tag ->
  init_of cls = Some f ->
  args_fit f args = true ->
  exists self d',
    construct cls args d = Some (self, d')
    /\ inst_js self = length (dom_nodes d)
    /\ length (dom_nodes d') = S (length (dom_nodes d))
    /\ forall m, m <> inst_js self -> dom_nodes d' !! m = dom_nodes d !! m.
Proof.
  intros Htag Hinit Hfit. eexists _, _.
  split; [by apply (construct_closed cls tag f)|].
  split; [reflexivity|].
  pose proof (construct_rest_on_node cls (length (dom_nodes d)) args) as Hrest.
  unfold construct_trace. cbn [inst_js].
  set (rest := style_calls _ _ ++ _) in *.
  change (EvCreate tag (length (dom_nodes d)) :: rest)
    with ([EvCreate tag (length (dom_nodes d))] ++ rest).
  rewrite replay_app. split.
  - rewrite (replay_length rest _ _ Hrest).
    unfold replay; cbn [dom_nodes foldl apply_event].
    rewrite length_app. cbn [length]. lia.
  - intros m Hm. rewrite (replay_other rest _ _ m Hrest Hm).
    unfold replay; cbn [dom_nodes foldl apply_event].
    destruct (decide (m < length (dom_nodes d))) as [Hlt|Hge].
    + by rewrite lookup_app_l.
    + rewrite !lookup_ge_None_2; [done | lia |].
      rewrite length_app. cbn [length]. lia.
Qed.

(** X6: a construction adds exactly one node to the store, the one the
    new instance wraps, and leaves every other node as it was: neither
    the nodes of other instances nor those of elements passed as content
    are touched. *)
Theorem X6_construction_frame (cls : pyclass) (tag : string) (f : init_fn)
    (args : call_args) (d : dom) :
  class_tag cls = Some tag ->
  init_of cls = Some f ->
  args_fit f args = true ->
  exists self d',
    construct cls args d = Some (self, d')
    /\ inst_js self = length (dom_nodes d)
    /\ length (dom_nodes d') = S (length (dom_nodes d))
    /\ forall m, m <> inst_js self -> dom_nodes d' !! m = dom_nodes d !! m.
Proof. apply construct_frame. Qed.

Lemma X6_construction_frame_witness :
  exists self d',
    construct (PyClass "p" PydomElement
                 [("tag", AStr "p");
                  ("__init__", AInit TextElementBase_init)])
              (ArgsTextElementBase (VStr "hi") None ∅)
              (Dom [new_node "div"] [EvCreate "div" 0])
    = Some (self, d')
    /\ inst_js self = 1
    /\ dom_nodes d' !! 0 = Some (new_node "div").
Proof.
  destruct (X6_construction_frame
              (PyClass "p" PydomElement
                 [("tag", AStr "p");
                  ("__init__", AInit TextElementBase_init)])
              "p" TextElementBase_init
              (ArgsTextElementBase (VStr "hi") None ∅)
              (Dom [new_node "div"] [EvCreate "div" 0])
              eq_refl eq_refl eq_refl)
    as (self & d' & Hrun & Hjs & _ & Hframe).
  exists self, d'. split; [exact Hrun|]. split; [exact Hjs|].
  rewrite Hframe; [reflexivity|]. rewrite Hjs. simpl. lia.
Defined.

(** ** The wrapped node after a construction *)

Lemma node_props_foldl nd es :
  node_props (foldl (fun nd e => apply_node e nd) nd es)
  = foldl assign_prop (node_props nd) es.
Proof.
  revert nd. induction es as [|e es IH]; intros nd; [done|].
  cbn [foldl]. rewrite IH. by destruct e.
Qed.

Lemma node_style_foldl nd es :
  node_style (foldl (fun nd e => apply_node e nd) nd es)
  = foldl assign_style (node_style nd) es.
Proof.
  revert nd. induction es as [|e es IH]; intros nd; [done|].
  cbn [foldl]. rewrite IH. by destruct e.
Qed.

Lemma assign_prop_skip m es :
  Forall (fun e => is_prop_call e = false) es -> foldl assign_prop m es = m.
Proof.
  induction 1 as [|e es He _ IH]; [done|].
  cbn [foldl]. by destruct e.
Qed.

Lemma assign_style_skip m es :
  Forall (fun e => is_style_call e = false) es -> foldl assign_style m es = m.
Proof.
  induction 1 as [|e es He _ IH]; [done|].
  cbn [foldl]. by destruct e.
Qed.

Lemma content_skip nd es :
  Forall (fun e => is_content_call e = false) es ->
  node_children (foldl (fun nd e => apply_node e nd) nd es) = node_children nd
  /\ node_html (foldl (fun nd e => apply_node e nd) nd es) = node_html nd.
Proof.
  intros Hes. revert nd.
  induction Hes as [|e es He _ IH]; intros nd; [done|].
  cbn [foldl]. destruct (IH (apply_node e nd)) as [-> ->].
  by destruct e.
Qed.

Lemma style_calls_kind n style :
  Forall (fun e => is_prop_call e = false) (style_calls n style)
  /\ Forall (fun e => is_content_call e = false) (style_calls n style).
Proof.
  destruct style as [items|]; [|by split; constructor].
  split; induction items as [|[k v] items IH]; by constructor.
Qed.

Lemma property_calls_kind self kwargs :
  Forall (fun e => is_style_call e = false) (property_calls self kwargs)
  /\ Forall (fun e => is_content_call e = false) (property_calls self kwargs).
Proof.
  unfold property_calls.
  induction (cls_dict (inst_class self)) as [|[k a] l [IHs IHc]];
    [by split; constructor|].
  cbn [flat_map]. rewrite !Forall_app.
  assert (Hhead : forall P : event -> bool,
            (forall n p v, P (EvProp n p v) = false) ->
            Forall (fun e => P e = false)
              (if is_JSProperty a
               then match kwargs !! k with
                    | Some value => setattr_calls self k value
                    | None => []
                    end
               else [])).
  { intros P HP. destruct (is_JSProperty a); [|constructor].
    destruct (kwargs !! k); [|constructor].
    unfold setattr_calls.
    destruct (type_lookup (inst_class self) k) as [[]|];
      repeat constructor. apply HP. }
  split; (split; [by apply Hhead | done]).
Qed.

Lemma content_calls_kind n content :
  Forall (fun e => is_prop_call e = false) (content_calls n content)
  /\ Forall (fun e => is_style_call e = false) (content_calls n content).
Proof.
  destruct content; simpl; try (by split; repeat constructor).
  split; induction items as [|c items IH]; by constructor.
Qed.

Lemma tail_calls_no_prop n args :
  Forall (fun e => is_prop_call e = false) (tail_calls n args).
Proof.
  destruct args; cbn [tail_calls]; [constructor| |].
  - apply content_calls_kind.
  - apply Forall_app. split; [apply content_calls_kind|].
    unfold grid_calls. destruct gap; repeat constructor.
Qed.

(** The node wrapped by a new instance: the calls of the construction
    after the creation, applied to a fresh node. *)
Lemma construct_node cls tag f args d :
  class_tag cls = Some tag ->
  init_of cls = Some f ->
  args_fit f args = true ->
  exists d',
    construct cls args d = Some (Instance cls (length (dom_nodes d)), d')
    /\ dom_nodes d' !! length (dom_nodes d)
       = Some (foldl (fun nd e => apply_node e nd) (new_node tag)
                 (style_calls (length (dom_nodes d)) (args_style args)
                  ++ property_calls (Instance cls (length (dom_nodes d)))
                                    (args_kwargs args)
                  ++ tail_calls (length (dom_nodes d)) args)).
Proof.
  intros Htag Hinit Hfit. eexists.
  split; [by apply (construct_closed cls tag f)|].
  unfold construct_trace. apply constructed_node.
  apply construct_rest_on_node.
Qed.

Lemma omap_NoDup_inj {A B} (g : A -> option B) (l : list A) x y z :
  NoDup (omap g l) -> x ∈ l -> y ∈ l ->
  g x = Some z -> g y = Some z -> x = y.
Proof.
  induction l as [|a l IH]; intros Hnd Hx Hy Hgx Hgy.
  - by apply elem_of_nil in Hx.
  - cbn [omap list_omap] in Hnd.
    assert (Hz : forall w, w ∈ l -> g w = Some z -> z ∈ omap g l)
      by (intros w Hw Hgw; apply list_elem_of_omap; by exists w).
    apply elem_of_cons in Hx as [->|Hx], Hy as [->|Hy]; [done| | |].
    + rewrite Hgx in Hnd. apply NoDup_cons in Hnd as [Hnin _].
      exfalso. apply Hnin. by apply (Hz y).
    + rewrite Hgy in Hnd. apply NoDup_cons in Hnd as [Hnin _].
      exfalso. apply Hnin. by apply (Hz x).
    + apply IH; try done. destruct (g a); [|done].
      by apply NoDup_cons in Hnd as [_ ?].
Qed.

Lemma supplied_lookup js name kwargs n l m :
  (forall k, (k, AJSProperty js) ∈ l -> k = name) ->
  foldl assign_prop m (supplied_assignments n kwargs l) !! js
  = if binds js l
    then match kwargs !! name with Some v => Some v | None => m !! js end
    else m !! js.
Proof.
  revert m. induction l as [|[k a] l IH]; intros m Hinj; [done|].
  assert (Hinj' : forall k, (k, AJSProperty js) ∈ l -> k = name)
    by (intros k' Hk'; apply Hinj; by right).
  unfold supplied_assignments, binds in *.
  cbn [omap list_omap existsb].
  destruct a as [s|f|mth|p]; try (by apply IH).
  destruct (decide (p = js)) as [->|Hne].
  - rewrite bool_decide_eq_true_2 by done. cbn [orb].
    assert (k = name) as -> by (apply Hinj; by left).
    destruct (kwargs !! name) as [v|] eqn:Hkw; cbn [fmap option_fmap option_map].
    + cbn [foldl assign_prop]. rewrite IH by done.
      destruct (existsb _ l); [done | apply lookup_insert_eq].
    + rewrite IH by done. by destruct (existsb _ l).
  - rewrite bool_decide_eq_false_2 by done. cbn [orb].
    destruct (kwargs !! k) as [v|]; cbn [fmap option_fmap option_map].
    + cbn [foldl assign_prop]. rewrite IH by done.
      by rewrite lookup_insert_ne.
    + by apply IH.
Qed.

Lemma keyword_round_trip cls tag f args d name js :
  class_tag cls = Some tag ->
  init_of cls = Some f ->
  args_fit f args = true ->
  well_keyed cls = true ->
  dict_get (cls_dict cls) name = Some (AJSProperty js) ->
  exists self d',
    construct cls args d = Some (self, d')
    /\ getattr self name d' = args_kwargs args !! name.
Proof.
  intros Htag Hinit Hfit Hwk Hget.
  apply andb_prop in Hwk as [Hkeys%bool_decide_eq_true_1
                               Hbound%bool_decide_eq_true_1].
  destruct (construct_node cls tag f args d Htag Hinit Hfit)
    as (d' & Hrun & Hnode).
  eexists _, d'. split; [exact Hrun|].
  unfold getattr. cbn [inst_class inst_js].
  assert (Hlook : type_lookup cls name = Some (AJSProperty js)).
  { destruct cls as [|n b dict]; [discriminate Hget|].
    cbn [type_lookup]. cbn [cls_dict] in Hget. by rewrite Hget. }
  rewrite Hlook. unfold JSProperty.__get__. cbn [inst_js].
  rewrite Hnode. cbn [mbind option_bind].
  rewrite node_props_foldl, !foldl_app.
  rewrite (assign_prop_skip _ (style_calls _ _))
    by apply style_calls_kind.
  rewrite (assign_prop_skip _ (tail_calls _ _))
    by apply tail_calls_no_prop.
  rewrite property_calls_supplied by done.
  pose proof (dict_get_elem _ _ _ Hget) as Hin.
  rewrite (supplied_lookup js name).
  - assert (Hb : binds js (cls_dict cls) = true).
    { unfold binds. apply existsb_exists. exists (name, AJSProperty js).
      split; [by apply list_elem_of_In | by apply bool_decide_eq_true_2]. }
    rewrite Hb. by destruct (args_kwargs args !! name).
  - intros k Hk.
    pose proof (omap_NoDup_inj
      (fun '(_, a) => match a with AJSProperty p => Some p | _ => None end)
      (cls_dict cls) (k, AJSProperty js) (name, AJSProperty js) js
      Hbound Hk Hin eq_refl eq_refl) as Heq.
    by injection Heq.
Qed.

Lemma elements_well_keyed n c :
  elements !! n = Some c -> well_keyed c = true.
Proof.
  intros Hn.
  assert (Hall : forallb (fun p => well_keyed p.2) (map_to_list elements)
                 = true) by by_evaluation.
  exact (elements_all (fun _ c => well_keyed c) Hall n c Hn).
Qed.

(** X7: a keyword passed to the constructor of a class of the module
    under the name of one of the class's own typed properties can be read
    back: after construction the attribute of that name has the value
    that was passed, and it is unset when the keyword was not passed. *)
Theorem X7_keyword_read_back (cname : string) (cls : pyclass) (f : init_fn)
    (args : call_args) (d : dom) (name js : string) :
  elements !! cname = Some cls ->
  init_of cls = Some f ->
  args_fit f args = true ->
  dict_get (cls_dict cls) name = Some (AJSProperty js) ->
  exists self d',
    construct cls args d = Some (self, d')
    /\ getattr self name d' = args_kwargs args !! name.
Proof.
  intros Hcls Hinit Hfit Hget.
  pose proof (elements_well_keyed _ _ Hcls) as Hwk.
  apply elements_tag_init in Hcls as (tag & f' & Htag & _).
  by apply (keyword_round_trip cls tag f args d name js).
Qed.

Lemma X7_keyword_read_back_witness :
  exists self d',
    construct (the_class "script")
              (ArgsTextElementBase VNone None
                 {[ "async_" := VBool true; "src" := VStr "main.py" ]})
              empty_dom
    = Some (self, d')
    /\ getattr self "async_" d' = Some (VBool true)
    /\ getattr self "src" d' = Some (VStr "main.py").
Proof.
  assert (Hcls : elements !! "script" = Some (the_class "script"))
    by (vm_compute; reflexivity).
  assert (Hinit : init_of (the_class "script") = Some TextElementBase_init)
    by (vm_compute; reflexivity).
  assert (Ha : dict_get (cls_dict (the_class "script")) "async_"
               = Some (AJSProperty "async")) by (vm_compute; reflexivity).
  assert (Hs : dict_get (cls_dict (the_class "script")) "src"
               = Some (AJSProperty "src")) by (vm_compute; reflexivity).
  destruct (X7_keyword_read_back "script" (the_class "script")
              TextElementBase_init
              (ArgsTextElementBase VNone None
                 {[ "async_" := VBool true; "src" := VStr "main.py" ]})
              empty_dom "async_" "async" Hcls Hinit eq_refl Ha)
    as (self & d' & Hrun & Hasync).
  destruct (X7_keyword_read_back "script" (the_class "script")
              TextElementBase_init
              (ArgsTextElementBase VNone None
                 {[ "async_" := VBool true; "src" := VStr "main.py" ]})
              empty_dom "src" "src" Hcls Hinit eq_refl Hs)
    as (self2 & d2 & Hrun2 & Hsrc).
  clear Hcls Hinit Ha Hs.
  rewrite Hrun in Hrun2. injection Hrun2 as <- <-.
  exists self, d'. split; [exact Hrun|].
  split; [exact Hasync | exact Hsrc].
Defined.

Lemma style_calls_map n items :
  foldl assign_style ∅ (style_calls n (Some items))
  = list_to_map (reverse items).
Proof.
  cbn [style_calls].
  induction items as [|[k v] items IH] using rev_ind; [done|].
  rewrite map_app, foldl_app, IH, reverse_snoc. cbn [map foldl assign_style].
  by rewrite list_to_map_cons.
Qed.

Lemma style_calls_style n style :
  foldl assign_style ∅ (style_calls n style)
  = list_to_map (reverse (default [] style)).
Proof. destruct style as [items|]; [apply style_calls_map | done]. Qed.

Lemma tail_calls_no_style n f args :
  args_fit f args = true -> f <> grid_init ->
  Forall (fun e => is_style_call e = false) (tail_calls n args).
Proof.
  intros Hfit Hf. destruct f, args; try discriminate Hfit; cbn [tail_calls].
  - constructor.
  - apply content_calls_kind.
  - by destruct Hf.
Qed.

(** X8: the inline style of an element made by [ElementBase.__init__] or
    [TextElementBase.__init__] is the style argument: it holds exactly
    the pairs of the dictionary (a later pair winning over an earlier one
    with the same key), and it is empty when the argument is [None] or
    an empty dictionary. *)
Theorem X8_style_of_new_element (cls : pyclass) (tag : string) (f : init_fn)
    (args : call_args) (d : dom) :
  class_tag cls = Some tag ->
  init_of cls = Some f ->
  f <> grid_init ->
  args_fit f args = true ->
  exists self d' nd,
    construct cls args d = Some (self, d')
    /\ dom_nodes d' !! inst_js self = Some nd
    /\ node_style nd = list_to_map (reverse (default [] (args_style args))).
Proof.
  intros Htag Hinit Hf Hfit.
  destruct (construct_node cls tag f args d Htag Hinit Hfit)
    as (d' & Hrun & Hnode).
  eexists _, d', _. split; [exact Hrun|]. split; [exact Hnode|].
  rewrite node_style_foldl, !foldl_app.
  rewrite (assign_style_skip _ (tail_calls _ _))
    by by apply (tail_calls_no_style _ f).
  rewrite (assign_style_skip _ (property_calls _ _))
    by apply property_calls_kind.
  apply style_calls_style.
Qed.

Lemma X8_style_of_new_element_witness :
  exists self d' nd,
    construct (PyClass "p" PydomElement
                 [("tag", AStr "p");
                  ("__init__", AInit TextElementBase_init)])
              (ArgsTextElementBase (VStr "hi")
                 (Some [("color", VStr "red"); ("margin", VInt 0)]) ∅)
              empty_dom
    = Some (self, d')
    /\ dom_nodes d' !! inst_js self = Some nd
    /\ node_style nd !! "color" = Some (VStr "red")
    /\ node_style nd !! "display" = None.
Proof.
  destruct (X8_style_of_new_element
              (PyClass "p" PydomElement
                 [("tag", AStr "p");
                  ("__init__", AInit TextElementBase_init)])
              "p" TextElementBase_init
              (ArgsTextElementBase (VStr "hi")
                 (Some [("color", VStr "red"); ("margin", VInt 0)]) ∅)
              empty_dom eq_refl eq_refl ltac:(discriminate) eq_refl)
    as (self & d' & nd & Hrun & Hnode & Hstyle).
  exists self, d', nd. split; [exact Hrun|]. split; [exact Hnode|].
  rewrite Hstyle. split; vm_compute; reflexivity.
Defined.

(** X9: the constructor of [grid] overrides nothing but its own keys:
    every style key other than ["display"] and ["grid-template-columns"]
    (and other than ["gap"], unless the gap argument is [None]) has the
    value the style argument gave it. *)
Theorem X9_grid_keeps_other_style (cls : pyclass) (tag : string)
    (layout content gap : pyval) (style : option pydict)
    (kwargs : gmap string pyval) (d : dom) (key : string) :
  class_tag cls = Some tag ->
  init_of cls = Some grid_init ->
  key <> "display" ->
  key <> "grid-template-columns" ->
  key <> "gap" \/ gap = VNone ->
  exists self d' nd,
    construct cls (ArgsGrid layout content gap style kwargs) d
    = Some (self, d')
    /\ dom_nodes d' !! inst_js self = Some nd
    /\ node_style nd !! key
       = (list_to_map (reverse (default [] style)) : gmap string pyval) !! key.
Proof.
  intros Htag Hinit Hd Hc Hg.
  destruct (construct_node cls tag grid_init
              (ArgsGrid layout content gap style kwargs) d Htag Hinit eq_refl)
    as (d' & Hrun & Hnode).
  eexists _, d', _. split; [exact Hrun|]. split; [exact Hnode|].
  cbn [args_style args_kwargs tail_calls].
  rewrite node_style_foldl, !foldl_app.
  rewrite (assign_style_skip _ (content_calls _ _))
    by apply content_calls_kind.
  rewrite (assign_style_skip _ (property_calls _ _))
    by apply property_calls_kind.
  rewrite style_calls_style. unfold grid_calls.
  destruct Hg as [Hg| ->].
  - destruct gap; cbn [app foldl assign_style];
      by rewrite ?(lookup_insert_ne _ "gap") by done;
         rewrite !lookup_insert_ne by done.
  - cbn [app foldl assign_style]. by rewrite !lookup_insert_ne by done.
Qed.

Lemma X9_grid_keeps_other_style_witness :
  exists self d' nd,
    construct (the_class "grid")
              (ArgsGrid (VStr "1fr 1fr") VNone VNone
                 (Some [("display", VStr "block"); ("gap", VStr "2px")]) ∅)
              empty_dom
    = Some (self, d')
    /\ dom_nodes d' !! inst_js self = Some nd
    /\ node_style nd !! "gap" = Some (VStr "2px").
Proof.
  assert (Htag : class_tag (the_class "grid") = Some "div")
    by (vm_compute; reflexivity).
  assert (Hinit : init_of (the_class "grid") = Some grid_init)
    by (vm_compute; reflexivity).
  destruct (X9_grid_keeps_other_style (the_class "grid") "div"
              (VStr "1fr 1fr") VNone VNone
              (Some [("display", VStr "block"); ("gap", VStr "2px")]) ∅
              empty_dom "gap" Htag Hinit
              ltac:(discriminate) ltac:(discriminate)
              (or_intror eq_refl))
    as (self & d' & nd & Hrun & Hnode & Hstyle).
  clear Htag Hinit.
  exists self, d', nd. split; [exact Hrun|]. split; [exact Hnode|].
  rewrite Hstyle. vm_compute. reflexivity.
Defined.

Lemma content_calls_effect n content nd :
  node_children (foldl (fun nd e => apply_node e nd) nd
                       (content_calls n content))
  = node_children nd ++ content_children content
  /\ node_html (foldl (fun nd e => apply_node e nd) nd
                      (content_calls n content))
     = match content_html content with
       | Some v => Some v
       | None => node_html nd
       end.
Proof.
  destruct content as [| | | |items|e];
    cbn [content_calls content_children content_html foldl apply_node
         node_children node_html];
    rewrite ?app_nil_r; try done.
  destruct (foldl_append n items nd) as (Hc & Hh & _).
  unfold append_all in *. by rewrite Hc, Hh.
Qed.

Lemma grid_calls_no_content n layout gap :
  Forall (fun e => is_content_call e = false) (grid_calls n layout gap).
Proof. unfold grid_calls. destruct gap; repeat constructor. Qed.

Lemma construct_content cls tag f args d :
  class_tag cls = Some tag ->
  init_of cls = Some f ->
  args_fit f args = true ->
  exists self d' nd,
    construct cls args d = Some (self, d')
    /\ inst_js self = length (dom_nodes d)
    /\ dom_nodes d' !! inst_js self = Some nd
    /\ node_children nd = content_children (args_content args)
    /\ node_html nd = content_html (args_content args).
Proof.
  intros Htag Hinit Hfit.
  destruct (construct_node cls tag f args d Htag Hinit Hfit)
    as (d' & Hrun & Hnode).
  eexists _, d', _. split; [exact Hrun|]. split; [reflexivity|].
  split; [exact Hnode|].
  rewrite !foldl_app.
  set (nd1 := foldl _ (foldl _ (new_node tag) (style_calls _ _))
                    (property_calls _ _)).
  assert (Hnd1 : node_children nd1 = [] /\ node_html nd1 = None).
  { unfold nd1.
    destruct (content_skip (foldl (fun nd e => apply_node e nd)
                              (new_node tag)
                              (style_calls (length (dom_nodes d))
                                           (args_style args)))
                (property_calls (Instance cls (length (dom_nodes d)))
                                (args_kwargs args)))
      as [-> ->]; [apply property_calls_kind|].
    apply content_skip, style_calls_kind. }
  destruct Hnd1 as [Hc1 Hh1]. clearbody nd1.
  destruct args as [s kw|c s kw|l c g s kw];
    cbn [tail_calls args_content].
  - cbn [foldl content_children content_html]. by rewrite Hc1, Hh1.
  - destruct (content_calls_effect (length (dom_nodes d)) c nd1)
      as [-> ->]. rewrite Hc1, Hh1.
    split; [done | by destruct (content_html c)].
  - rewrite foldl_app.
    destruct (content_skip
                (foldl (fun nd e => apply_node e nd) nd1
                       (content_calls (length (dom_nodes d)) c))
                (grid_calls (length (dom_nodes d)) l g)
                (grid_calls_no_content _ _ _)) as [-> ->].
    destruct (content_calls_effect (length (dom_nodes d)) c nd1)
      as [-> ->]. rewrite Hc1, Hh1.
    split; [done | by destruct (content_html c)].
Qed.

(** X10: what a new element holds is decided by the content alone: an
    element gives one child, a list gives its items as children in list
    order (none for the empty list), [None] gives nothing, and any other
    value, the empty string included, becomes the html; a class
    constructed by [ElementBase.__init__] gets neither children nor
    html. *)
Theorem X10_content_of_new_element (cls : pyclass) (tag : string)
    (f : init_fn) (args : call_args) (d : dom) :
  class_tag cls = Some tag ->
  init_of cls = Some f ->
  args_fit f args = true ->
  exists self d' nd,
    construct cls args d = Some (self, d')
    /\ inst_js self = length (dom_nodes d)
    /\ dom_nodes d' !! inst_js self = Some nd
    /\ node_children nd = content_children (args_content args)
    /\ node_html nd = content_html (args_content args).
Proof. apply construct_content. Qed.

Lemma X10_content_of_new_element_witness :
  exists self d' nd,
    construct (PyClass "p" PydomElement
                 [("tag", AStr "p");
                  ("__init__", AInit TextElementBase_init)])
              (ArgsTextElementBase (VStr "") None ∅) empty_dom
    = Some (self, d')
    /\ dom_nodes d' !! inst_js self = Some nd
    /\ node_children nd = []
    /\ node_html nd = Some (VStr "").
Proof.
  destruct (X10_content_of_new_element
              (PyClass "p" PydomElement
                 [("tag", AStr "p");
                  ("__init__", AInit TextElementBase_init)])
              "p" TextElementBase_init
              (ArgsTextElementBase (VStr "") None ∅) empty_dom
              eq_refl eq_refl eq_refl)
    as (self & d' & nd & Hrun & _ & Hnode & Hc & Hh).
  exists self, d', nd. split; [exact Hrun|]. split; [exact Hnode|].
  split; [exact Hc | exact Hh].
Defined.

(** X11: nesting composes: when an element is constructed and then
    passed as the content of a second one, the second wraps a different
    node, has the first as its only child and no html, and the node of
    the first is exactly as its own construction left it. *)
Theorem X11_nested_construction (c1 c2 : pyclass) (t1 t2 : string)
    (f1 : init_fn) (args1 : call_args) (style : option pydict)
    (kwargs : gmap string pyval) (d : dom) :
  class_tag c1 = Some t1 ->
  init_of c1 = Some f1 ->
  args_fit f1 args1 = true ->
  class_tag c2 = Some t2 ->
  init_of c2 = Some TextElementBase_init ->
  exists child d1 parent d2 nd,
    construct c1 args1 d = Some (child, d1)
    /\ construct c2 (ArgsTextElementBase (VElement child) style kwargs) d1
       = Some (parent, d2)
    /\ inst_js parent <> inst_js child
    /\ dom_nodes d2 !! inst_js child = dom_nodes d1 !! inst_js child
    /\ dom_nodes d2 !! inst_js parent = Some nd
    /\ node_children nd = [VElement child]
    /\ node_html nd = None.
Proof.
  intros Ht1 Hi1 Hfit1 Ht2 Hi2.
  destruct (construct_frame c1 t1 f1 args1 d Ht1 Hi1 Hfit1)
    as (child & d1 & Hrun1 & Hjs1 & Hlen1 & _).
  destruct (construct_content c2 t2 TextElementBase_init
              (ArgsTextElementBase (VElement child) style kwargs) d1
              Ht2 Hi2 eq_refl)
    as (parent & d2 & nd & Hrun2 & Hjs2 & Hnode & Hc & Hh).
  destruct (construct_frame c2 t2 TextElementBase_init
              (ArgsTextElementBase (VElement child) style kwargs) d1
              Ht2 Hi2 eq_refl)
    as (parent' & d2' & Hrun2' & _ & _ & Hframe).
  rewrite Hrun2 in Hrun2'. injection Hrun2' as <- <-.
  assert (Hne : inst_js parent <> inst_js child) by lia.
  exists child, d1, parent, d2, nd.
  split; [exact Hrun1|]. split; [exact Hrun2|]. split; [exact Hne|].
  split; [apply Hframe; by intros ?|].
  split; [exact Hnode|]. split; [exact Hc | exact Hh].
Qed.

Lemma X11_nested_construction_witness :
  exists child d1 parent d2,
    construct (the_class "span")
              (ArgsTextElementBase (VStr "hi") None ∅) empty_dom
    = Some (child, d1)
    /\ construct (the_class "div")
                 (ArgsTextElementBase (VElement child) None ∅) d1
       = Some (parent, d2)
    /\ inst_js child = 0 /\ inst_js parent = 1
    /\ dom_trace d2 = [EvCreate "span" 0; EvHtml 0 (VStr "hi");
                       EvCreate "div" 1; EvAppend 1 (VElement child)].
Proof.
  assert (Ht1 : class_tag (the_class "span") = Some "span")
    by (vm_compute; reflexivity).
  assert (Hi1 : init_of (the_class "span") = Some TextElementBase_init)
    by (vm_compute; reflexivity).
  assert (Ht2 : class_tag (the_class "div") = Some "div")
    by (vm_compute; reflexivity).
  assert (Hi2 : init_of (the_class "div") = Some TextElementBase_init)
    by (vm_compute; reflexivity).
  destruct (X11_nested_construction (the_class "span") (the_class "div")
              "span" "div" TextElementBase_init
              (ArgsTextElementBase (VStr "hi") None ∅) None ∅ empty_dom
              Ht1 Hi1 eq_refl Ht2 Hi2)
    as (child & d1 & parent & d2 & nd & Hrun1 & Hrun2 & _).
  clear Ht1 Hi1 Ht2 Hi2.
  exists child, d1, parent, d2. split; [exact Hrun1|].
  split; [exact Hrun2|].
  vm_compute in Hrun1. injection Hrun1 as <- <-.
  vm_compute in Hrun2. injection Hrun2 as <- <-.
  repeat split.
Defined.

(** X12: empty arguments are no arguments: with no keyword, a style
    that is [None] or the empty dictionary, and a content that is [None]
    or the empty list, in any combination, construction makes the single
    call [document.createElement] and leaves a fresh node of the class's
    tag. *)
Theorem X12_empty_arguments (cls : pyclass) (tag : string)
    (style : option pydict) (content : pyval) (d : dom) :
  class_tag cls = Some tag ->
  style = None \/ style = Some [] ->
  content = VNone \/ content = VList [] ->
  let bare :=
    Some (Instance cls (length (dom_nodes d)),
          Dom (dom_nodes d ++ [new_node tag])
              (dom_trace d ++ [EvCreate tag (length (dom_nodes d))])) in
  ElementBase.__init__ cls style ∅ d = bare
  /\ TextElementBase.__init__ cls content style ∅ d = bare.
Proof.
  intros Htag Hstyle Hcontent bare.
  assert (Hprops : forall js, property_calls (Instance cls js) ∅ = [])
    by (intros js; apply property_calls_none; intros name _;
        apply lookup_empty).
  rewrite (ElementBase_init_replay _ tag),
          (TextElementBase_init_replay _ tag) by done.
  unfold TextElementBase_calls, ElementBase_calls. rewrite Hprops.
  destruct Hstyle as [-> | ->], Hcontent as [-> | ->]; by split.
Qed.

Lemma X12_empty_arguments_witness :
  TextElementBase.__init__
    (PyClass "p" PydomElement [("tag", AStr "p"); ("id", js_property "id")])
    (VList []) None ∅ empty_dom
  = Some (Instance
            (PyClass "p" PydomElement
                     [("tag", AStr "p"); ("id", js_property "id")]) 0,
          Dom [new_node "p"] [EvCreate "p" 0]).
Proof.
  exact (proj2
    (X12_empty_arguments
       (PyClass "p" PydomElement [("tag", AStr "p"); ("id", js_property "id")])
       "p" None (VList []) empty_dom eq_refl
       (or_introl eq_refl) (or_intror eq_refl))).
Defined.
